(** * py-aleph: chain data service, pending-tx and pending-message jobs

    A shallow embedding of
    - [aleph/chains/chaindata.py]            (class [ChainDataService]),
    - [aleph/jobs/process_pending_txs.py]    ([PendingTxProcessor.handle_pending_tx]),
    - [aleph/jobs/process_pending_messages.py]
      ([handle_pending_message], [get_pending_message_id] and the cleanup
      sweep that closes each round of [process_pending_messages]),
    together with the message publisher and the VM handler, which this
    development models from the specification.

    Python values that travel as JSON are values of [json]; exceptions are
    values of [exn] and a call that may raise returns a [result]; mutable
    objects (the database, the [seen_ids] set, the storage service) are
    threaded explicitly, so that what was mutated before an exception is
    raised stays visible to the caller. *)

From stdpp Require Import gmap strings list fin_maps pretty.
From Stdlib Require Import ZArith QArith.

Set Warnings "-register-all".

Open Scope string_scope.
Open Scope Z_scope.

(** ** JSON values *)

Inductive json : Type :=
| JNull
| JBool (b : bool)
| JNum (n : Z)
| JStr (s : string)
| JList (l : list json)
| JObj (fields : list (string * json)).

(** Python dictionaries keep insertion order; a key occurs once. *)
Fixpoint dict_get (k : string) (d : list (string * json)) : option json :=
  match d with
  | [] => None
  | (k', v) :: d' => if String.eqb k k' then Some v else dict_get k d'
  end.

(** ** Exceptions and results *)

Inductive exn : Type :=
| InvalidContent              (* aleph.exceptions, an AlephStorageException *)
| ContentCurrentlyUnavailable (* aleph.exceptions, an AlephStorageException *)
| InvalidMessageError         (* aleph.exceptions *)
| ValueError (msg : string)
| KeyError (key : string)
| TypeError
| AssertionError
| OtherError (name : string)       (* any other subclass of Exception *)
| BaseExceptionOnly (name : string).
    (* asyncio.CancelledError, KeyboardInterrupt, SystemExit, GeneratorExit:
       subclasses of BaseException that are not subclasses of Exception *)

Definition is_AlephStorageException (e : exn) : bool :=
  match e with
  | InvalidContent | ContentCurrentlyUnavailable => true
  | _ => false
  end.

(** What [except Exception] catches. *)
Definition is_Exception (e : exn) : bool :=
  match e with
  | BaseExceptionOnly _ => false
  | _ => true
  end.

(** pydantic's [ValidationError]. *)
Definition ValidationError : exn := OtherError "ValidationError".

Inductive result (A : Type) : Type :=
| Ok (a : A)
| Raise (e : exn).
Arguments Ok {A} a.
Arguments Raise {A} e.

Definition rbind {A B} (r : result A) (k : A -> result B) : result B :=
  match r with
  | Ok a => k a
  | Raise e => Raise e
  end.

Declare Scope result_scope.
Delimit Scope result_scope with result.
Notation "x <- r ;; k" := (rbind r (fun x => k))
  (at level 100, r at next level, right associativity) : result_scope.

(** [obj[key]] on a Python value: a [KeyError] when a dict lacks the key, a
    [TypeError] when the value cannot be indexed by a string key. *)
Definition getitem (v : json) (k : string) : result json :=
  match v with
  | JObj d =>
      match dict_get k d with
      | Some x => Ok x
      | None => Raise (KeyError k)
      end
  | _ => Raise TypeError
  end.

(** [len(v)]: defined on strings, lists and dicts. *)
Definition py_len (v : json) : result Z :=
  match v with
  | JStr s => Ok (Z.of_nat (String.length s))
  | JList l => Ok (Z.of_nat (length l))
  | JObj d => Ok (Z.of_nat (length d))
  | _ => Raise TypeError
  end.

(** Truth value of a Python object, as tested by [if messages:]. *)
Definition truthy (v : json) : bool :=
  match v with
  | JNull => false
  | JBool b => b
  | JNum n => negb (n =? 0)
  | JStr s => negb (String.eqb s "")
  | JList l => negb (Nat.eqb (length l) 0)
  | JObj d => negb (Nat.eqb (length d) 0)
  end.

(** ** Enumerations of [aleph_message.models] and [aleph.types] *)

Inductive Chain : Type :=
| AVAX | BSC | CSDK | DOT | ETH | NEO | NULS | NULS2 | SOL | TEZOS.

Definition Chain_value (c : Chain) : string :=
  match c with
  | AVAX => "AVAX" | BSC => "BSC" | CSDK => "CSDK" | DOT => "DOT"
  | ETH => "ETH" | NEO => "NEO" | NULS => "NULS" | NULS2 => "NULS2"
  | SOL => "SOL" | TEZOS => "TEZOS"
  end.

Inductive MessageType : Type :=
| aggregate | forget | instance | post | program | store.

Definition MessageType_value (t : MessageType) : string :=
  match t with
  | aggregate => "AGGREGATE" | forget => "FORGET" | instance => "INSTANCE"
  | post => "POST" | program => "PROGRAM" | store => "STORE"
  end.

Inductive ItemType : Type := inline | storage | ipfs.

Definition ItemType_value (t : ItemType) : string :=
  match t with
  | inline => "inline" | storage => "storage" | ipfs => "ipfs"
  end.

Inductive ChainSyncProtocol : Type :=
| ON_CHAIN_SYNC | OFF_CHAIN_SYNC | SMART_CONTRACT.

Definition ChainSyncProtocol_value (p : ChainSyncProtocol) : string :=
  match p with
  | ON_CHAIN_SYNC => "aleph-sync"
  | OFF_CHAIN_SYNC => "aleph-offchain-sync"
  | SMART_CONTRACT => "smart-contract"
  end.

Global Instance Chain_eq_dec : EqDecision Chain.
Proof. solve_decision. Defined.
Global Instance ChainSyncProtocol_eq_dec : EqDecision ChainSyncProtocol.
Proof. solve_decision. Defined.
Global Instance ItemType_eq_dec : EqDecision ItemType.
Proof. solve_decision. Defined.
Global Instance MessageType_eq_dec : EqDecision MessageType.
Proof. solve_decision. Defined.

(** Timestamps: a [datetime] is a count of microseconds since the epoch, and
    [timestamp] is its epoch value, in the same unit. *)
Definition datetime := Z.
Definition timestamp (d : datetime) : Z := d.

(** ** Records of the data model *)

(** [ChainTxDb] ([aleph.db.models.chains]): the columns the chain data
    service reads. *)
Module ChainTxDb.
Record t : Type := mk {
    hash : string;
    chain : Chain;
    height : Z;
    datetime : datetime;
    protocol : ChainSyncProtocol;
    protocol_version : Z;
    content : json;
  }.
End ChainTxDb.

(** [MessageDb], the columns declared in [aleph/db/models/messages.py]. *)
Module MessageDb.
Record t : Type := mk {
    item_hash : string;
    type : MessageType;
    chain : Chain;
    sender : string;
    signature : option string;
    item_type : ItemType;
    item_content : option string;
    content : json;
    time : datetime;
    channel : option string;
    size : Z;
  }.
End MessageDb.

(** [MessageEventPayload] ([aleph/schemas/chains/tezos_indexer_response.py]);
    [message_type] and [message_content] have the aliases [msgtype] and
    [msgcontent]. *)
Module MessageEventPayload.
Record t : Type := mk {
    timestamp : Z;
    addr : string;
    message_type : string;
    message_content : string;
  }.
End MessageEventPayload.

(** [StoreContent] of [aleph_message], with the four fields the service sets. *)
Module StoreContent.
Record t : Type := mk {
    address : string;
    time : Z;
    item_type : ItemType;
    item_hash : string;
  }.
End StoreContent.

Module StoredFileDb.
Record t : Type := mk {
    hash : string;
    size : Z;
  }.
End StoredFileDb.

(** What [StorageService.get_json] returns: the parsed value, the hash and
    the raw bytes. *)
Module MessageContent.
Record t : Type := mk {
    hash : string;
    value : json;
    raw_value : string;
  }.
End MessageContent.

(** ** External services *)

(** Library functions the service calls: [json.dumps], [get_sha256],
    pydantic's [StoreContent.json] and [MessageEventPayload.parse_obj]
    ([None] stands for a [ValidationError]), and the validation that the
    constructor [StoreContent(...)] runs on its keyword arguments ([false]
    stands for a [ValidationError]: [item_hash] is an [ItemHash], which
    refuses a string that has not the shape of a hash). *)
Class Codec : Type := {
  json_dumps : json -> string;
  get_sha256 : string -> string;
  StoreContent_json : StoreContent.t -> string;
  StoreContent_validates : StoreContent.t -> bool;
  MessageEventPayload_parse_obj : json -> option MessageEventPayload.t;
}.

(** Outcome of [asyncio.wait_for(storage_service.pin_hash(h), timeout=120)]. *)
Inductive pin_outcome : Type :=
| PinDone
| PinTimeout
| PinRaise (e : exn).

(** [aleph.storage.StorageService], over a state [S] of stored content. *)
Class StorageService (S : Type) : Type := {
  add_json : S -> json -> string * S;
  get_json : S -> string -> Z -> result MessageContent.t;
  pin_hash : S -> string -> pin_outcome;
}.

(** [aleph.handlers.message_handler.MessagePublisher], over a state [P] that
    stands for the tables the publisher writes in its own sessions. *)
Class MessagePublisher (P : Type) : Type := {
  publisher_add_pending_message :
    P -> json -> datetime -> string -> bool -> result unit * P;
}.

(** ** The node: database, storage and the calls made to storage *)

Record Node (S P : Type) : Type := mkNode {
  node_storage : S;
  pending_txs : gmap string ChainTxDb.t;
  stored_files : gmap string StoredFileDb.t;
  tx_file_pins : gmap (string * string) datetime;
  published : P;
  fetch_log : list string;
  pin_log : list string;
}.
Arguments mkNode {S P}.
Arguments node_storage {S P}.
Arguments pending_txs {S P}.
Arguments stored_files {S P}.
Arguments tx_file_pins {S P}.
Arguments published {S P}.
Arguments fetch_log {S P}.
Arguments pin_log {S P}.

Definition set_pending_txs {S P} (m : gmap string ChainTxDb.t) (n : Node S P)
  : Node S P :=
  mkNode (node_storage n) m (stored_files n) (tx_file_pins n) (published n)
         (fetch_log n) (pin_log n).

Definition set_published {S P} (p : P) (n : Node S P) : Node S P :=
  mkNode (node_storage n) (pending_txs n) (stored_files n) (tx_file_pins n) p
         (fetch_log n) (pin_log n).

Definition log_fetch {S P} (h : string) (n : Node S P) : Node S P :=
  mkNode (node_storage n) (pending_txs n) (stored_files n) (tx_file_pins n)
         (published n) (fetch_log n ++ [h]) (pin_log n).

Definition log_pin {S P} (h : string) (n : Node S P) : Node S P :=
  mkNode (node_storage n) (pending_txs n) (stored_files n) (tx_file_pins n)
         (published n) (fetch_log n) (pin_log n ++ [h]).

(** [upsert_stored_file] and [upsert_tx_file_pin], committed together. *)
Definition upsert_file_and_pin {S P}
    (file : StoredFileDb.t) (file_hash tx_hash : string) (created : datetime)
    (n : Node S P) : Node S P :=
  mkNode (node_storage n) (pending_txs n)
         (<[StoredFileDb.hash file := file]> (stored_files n))
         (<[(file_hash, tx_hash) := created]> (tx_file_pins n))
         (published n) (fetch_log n) (pin_log n).

(** The tables of the database, without the storage and the call logs. *)
Definition database {S P} (n : Node S P) :=
  (pending_txs n, stored_files n, tx_file_pins n, published n).

(** ** [ChainDataService] ([aleph/chains/chaindata.py]) *)

Definition INCOMING_MESSAGE_AUTHORIZED_FIELDS : list string :=
  [ "item_hash"; "item_content"; "item_type"; "chain"; "channel"; "sender";
    "type"; "time"; "signature" ].

Definition json_of_option_str (o : option string) : json :=
  match o with
  | Some s => JStr s
  | None => JNull
  end.

(** A column value, before serialization: the [time] column holds a
    [datetime], every other one a JSON-compatible value. *)
Inductive column_value : Type :=
| ColJson (v : json)
| ColTime (d : datetime).

(** [MessageDb.to_dict()]: one entry per column, in declaration order. *)
Definition MessageDb_to_dict (m : MessageDb.t) : list (string * column_value) :=
  [ ("item_hash", ColJson (JStr (MessageDb.item_hash m)));
    ("type", ColJson (JStr (MessageType_value (MessageDb.type m))));
    ("chain", ColJson (JStr (Chain_value (MessageDb.chain m))));
    ("sender", ColJson (JStr (MessageDb.sender m)));
    ("signature", ColJson (json_of_option_str (MessageDb.signature m)));
    ("item_type", ColJson (JStr (ItemType_value (MessageDb.item_type m))));
    ("item_content", ColJson (json_of_option_str (MessageDb.item_content m)));
    ("content", ColJson (MessageDb.content m));
    ("time", ColTime (MessageDb.time m));
    ("channel", ColJson (json_of_option_str (MessageDb.channel m)));
    ("size", ColJson (JNum (MessageDb.size m))) ].

Definition is_authorized_field (k : string) : bool :=
  existsb (String.eqb k) INCOMING_MESSAGE_AUTHORIZED_FIELDS.

(** [message_to_dict]: keep the authorized fields, then replace the [time]
    entry by its epoch value ([time] is the only timestamp column). *)
Definition message_to_dict (m : MessageDb.t) : json :=
  JObj (map (fun kv : string * column_value =>
               (kv.1, match kv.2 with
                      | ColJson v => v
                      | ColTime d => JNum (timestamp d)
                      end))
            (List.filter (fun kv : string * column_value => is_authorized_field kv.1)
                         (MessageDb_to_dict m))).

Definition sync_envelope (p : ChainSyncProtocol) (content : json) : json :=
  JObj [ ("protocol", JStr (ChainSyncProtocol_value p));
         ("version", JNum 1);
         ("content", content) ].

(** The inline envelope built first by [get_chaindata]. *)
Definition on_chain_chaindata (messages : list MessageDb.t) : json :=
  sync_envelope ON_CHAIN_SYNC
    (JObj [ ("messages", JList (map message_to_dict messages)) ]).

Section ChainData.
Context `{Codec} {S P : Type} `{StorageService S}.

  (** The envelope [get_chaindata] serializes, and the storage after the
      call: the inline envelope, or, when its serialized length exceeds
      [bulk_threshold], the off-chain envelope that carries the hash under
      which the inline one was stored. *)
Definition get_chaindata_envelope
      (messages : list MessageDb.t) (bulk_threshold : Z) (st : S) : json * S :=
    let chaindata := on_chain_chaindata messages in
    let content := json_dumps chaindata in
    if bulk_threshold <? Z.of_nat (String.length content) then
      let '(ipfs_id, st') := add_json st chaindata in
      (sync_envelope OFF_CHAIN_SYNC (JStr ipfs_id), st')
    else (chaindata, st).

Definition get_chaindata
      (messages : list MessageDb.t) (bulk_threshold : Z) (st : S) : string * S :=
    let '(envelope, st') := get_chaindata_envelope messages bulk_threshold st in
    (json_dumps envelope, st').

Definition _get_sync_messages (tx_content : json) : result json :=
    getitem tx_content "messages".

Definition _get_tx_messages_on_chain_protocol (tx : ChainTxDb.t) : result json :=
    (messages <- _get_sync_messages (ChainTxDb.content tx) ;;
     match messages with
     | JList _ => Ok messages
     | _ => Raise InvalidContent
     end)%result.

  (** The part of the off-chain protocol that follows the [seen_ids] test:
      fetch, extraction of the messages and, when IPFS is enabled, the file
      records and the pin. *)
Definition fetch_off_chain_messages
      (ipfs_enabled : bool) (now : datetime) (tx : ChainTxDb.t)
      (file_hash : string) (n : Node S P) : result json * Node S P :=
    let n1 := log_fetch file_hash n in
    match get_json (node_storage n1) file_hash 60 with
    | Raise e =>
        (* [except AlephStorageException: raise], then [except Exception]:
           what is no [Exception] passes through both clauses *)
        if is_AlephStorageException e then (Raise e, n1)
        else if is_Exception e then (Raise ContentCurrentlyUnavailable, n1)
        else (Raise e, n1)
    | Ok sync_file_content =>
        match _get_sync_messages (MessageContent.value sync_file_content) with
        | Raise e => (Raise e, n1)
        | Ok messages =>
            match py_len messages with
            | Raise e => (Raise e, n1)
            | Ok _ =>
                if ipfs_enabled then
                  let stored_file :=
                    StoredFileDb.mk
                      (MessageContent.hash sync_file_content)
                      (Z.of_nat (String.length
                                   (MessageContent.raw_value sync_file_content))) in
                  let n2 :=
                    upsert_file_and_pin stored_file file_hash
                                        (ChainTxDb.hash tx) now n1 in
                  let n3 := log_pin file_hash n2 in
                  match pin_hash (node_storage n3) file_hash with
                  | PinDone | PinTimeout => (Ok messages, n3)
                  | PinRaise e => (Raise e, n3)
                  end
                else (Ok messages, n1)
            end
        end
    end.

Definition _get_tx_messages_off_chain_protocol
      (ipfs_enabled : bool) (now : datetime) (tx : ChainTxDb.t)
      (seen_ids : option (gset string)) (n : Node S P)
    : result json * option (gset string) * Node S P :=
    match ChainTxDb.content tx with
    | JStr file_hash =>
        match seen_ids with
        | Some seen =>
            if decide (file_hash ∈ seen) then (Ok (JList []), Some seen, n)
            else
              let seen' := {[file_hash]} ∪ seen in
              let '(r, n') := fetch_off_chain_messages ipfs_enabled now tx file_hash n in
              (r, Some seen', n')
        | None =>
            let '(r, n') := fetch_off_chain_messages ipfs_enabled now tx file_hash n in
            (r, None, n')
        end
    | _ => (Raise AssertionError, seen_ids, n)
    end.

Definition _get_tx_messages_smart_contract_protocol (tx : ChainTxDb.t)
    : result json :=
    match MessageEventPayload_parse_obj (ChainTxDb.content tx) with
    | None => Raise InvalidContent
    | Some payload =>
        (* [message_type := payload.message_type != "STORE_IPFS"] binds the
           result of the comparison. *)
        if negb (String.eqb (MessageEventPayload.message_type payload) "STORE_IPFS")
        then Raise (ValueError "Unexpected message type: True")
        else
          let content :=
            StoreContent.mk (MessageEventPayload.addr payload)
                            (MessageEventPayload.timestamp payload)
                            ipfs
                            (MessageEventPayload.message_content payload) in
          (* the constructor stands outside the [try]: its
             [ValidationError] leaves the function *)
          if negb (StoreContent_validates content) then Raise ValidationError
          else
            let item_content := StoreContent_json content in
            let item_hash := get_sha256 item_content in
            Ok (JList
                  [ JObj [ ("item_hash", JStr item_hash);
                           ("sender", JStr (MessageEventPayload.addr payload));
                           ("chain", JStr (Chain_value TEZOS));
                           ("signature", JNull);
                           ("type", JStr (MessageType_value store));
                           ("item_content", JStr item_content);
                           ("item_type", JStr (ItemType_value inline));
                           ("time", JNum (timestamp (ChainTxDb.datetime tx))) ] ])
    end.

Definition get_tx_messages
      (ipfs_enabled : bool) (now : datetime) (tx : ChainTxDb.t)
      (seen_ids : option (gset string)) (n : Node S P)
    : result json * option (gset string) * Node S P :=
    match ChainTxDb.protocol tx, ChainTxDb.protocol_version tx with
    | ON_CHAIN_SYNC, 1 => (_get_tx_messages_on_chain_protocol tx, seen_ids, n)
    | OFF_CHAIN_SYNC, 1 =>
        _get_tx_messages_off_chain_protocol ipfs_enabled now tx seen_ids n
    | SMART_CONTRACT, 1 => (_get_tx_messages_smart_contract_protocol tx, seen_ids, n)
    | _, _ => (Raise InvalidContent, seen_ids, n)
    end.

End ChainData.

(** ** [PendingTxProcessor] ([aleph/jobs/process_pending_txs.py]) *)

(** Iterating a Python value: the items of a list, the characters of a
    string, the keys of a dict. *)
Definition py_iter (v : json) : result (list json) :=
  match v with
  | JList l => Ok l
  | JStr s => Ok (map (fun c => JStr (String c EmptyString)) (String.list_ascii_of_string s))
  | JObj d => Ok (map (fun kv : string * json => JStr kv.1) d)
  | _ => Raise TypeError
  end.

Section PendingTxs.
Context `{Codec} {S P : Type} `{StorageService S} `{MessagePublisher P}.

  (** The loop over the candidates; it stops at the first call that raises. *)
Fixpoint publish_messages
      (messages : list json) (now : datetime) (tx_hash : string)
      (check_message : bool) (p : P) : result unit * P :=
    match messages with
    | [] => (Ok tt, p)
    | message_dict :: rest =>
        match publisher_add_pending_message p message_dict now tx_hash check_message with
        | (Ok _, p') => publish_messages rest now tx_hash check_message p'
        | (Raise e, p') => (Raise e, p')
        end
    end.

Definition handle_pending_tx
      (ipfs_enabled : bool) (now : datetime) (pending_tx_hash : string)
      (seen_ids : option (gset string)) (n : Node S P)
    : result unit * option (gset string) * Node S P :=
    match pending_txs n !! pending_tx_hash with
    | None => (Ok tt, seen_ids, n)
    | Some tx =>
        match get_tx_messages ipfs_enabled now tx seen_ids n with
        | (Raise e, seen', n') => (Raise e, seen', n')
        | (Ok messages, seen', n') =>
            let published_result :=
              if truthy messages then
                match py_iter messages with
                | Ok items =>
                    publish_messages items now (ChainTxDb.hash tx)
                      (bool_decide (ChainTxDb.protocol tx ≠ SMART_CONTRACT))
                      (published n')
                | Raise e => (Raise e, published n')
                end
              else (Ok tt, published n') in
            match published_result with
            | (Raise e, p') => (Raise e, seen', set_published p' n')
            | (Ok _, p') =>
                let n'' := set_published p' n' in
                match messages with
                | JNull => (Ok tt, seen', n'')
                | _ =>
                    (Ok tt, seen',
                     set_pending_txs (delete pending_tx_hash (pending_txs n'')) n'')
                end
            end
        end
    end.

  (** The loop of [handle_pending_tx] (l.67-77) on the value the service
      returned, from the publisher's tables [p]. *)
Definition publish_candidates
      (messages : json) (now : datetime) (tx : ChainTxDb.t) (p : P)
    : result unit * P :=
    if truthy messages then
      match py_iter messages with
      | Ok items =>
          publish_messages items now (ChainTxDb.hash tx)
            (bool_decide (ChainTxDb.protocol tx ≠ SMART_CONTRACT)) p
      | Raise e => (Raise e, p)
      end
    else (Ok tt, p).

End PendingTxs.

(** ** The pending-message job ([aleph/jobs/process_pending_messages.py]) *)

(** Pending messages are documents of a collection; a document is a dict. *)
Fixpoint path_get (path : list string) (doc : json) : option json :=
  match path with
  | [] => Some doc
  | k :: path' =>
      match doc with
      | JObj d =>
          match dict_get k d with
          | Some v => path_get path' v
          | None => None
          end
      | _ => None
      end
  end.

(** [d.get(k)] and [d.get(k, default)] on a dict. *)
Definition py_get (doc : json) (k : string) (default : json) : result json :=
  match doc with
  | JObj d =>
      match dict_get k d with
      | Some v => Ok v
      | None => Ok default
      end
  | _ => Raise (OtherError "AttributeError")
  end.

Inductive Collection : Type :=
| PendingMessage
| OtherCollection (name : string).

Inductive MongoOperation : Type :=
| DeleteOne (filter : json)
| DeleteMany (filter : json)
| InsertOne (document : json)
| UpdateOne (filter update : json) (upsert : bool).

Record DbBulkOperation : Type := mkDbBulkOperation {
  collection : Collection;
  operation : MongoOperation;
}.

Inductive IncomingStatus : Type :=
| FAILED_PERMANENTLY
| RETRYING_LATER
| MESSAGE_HANDLED.

Global Instance IncomingStatus_eq_dec : EqDecision IncomingStatus.
Proof. solve_decision. Defined.

(** Keys of the [seen_ids] dict of the job: (item_hash, sender, chain_name),
    each mapped to a height. *)
Abbreviation seen_key := (string * string * string)%type.

(** [parse_message] ([aleph.schemas.pending_messages]) and [incoming]
    ([aleph.chains.common]), over the type [M] of parsed messages.
    [incoming] receives the parsed message, chain_name, tx_hash, height,
    [seen_ids], check_message and existing_id (it is always called with
    [retrying=True]), and may update [seen_ids]. *)
Class MessageHandling (M : Type) : Type := {
  parse_message : json -> result M;
  incoming :
    M -> json -> json -> json -> gmap seen_key Z -> json -> json ->
    result (IncomingStatus * list DbBulkOperation) * gmap seen_key Z;
}.

Section PendingMessages.
Context {M : Type} `{MessageHandling M}.

Definition handle_pending_message
      (pending : json) (seen_ids : gmap seen_key Z)
    : result (list DbBulkOperation) * gmap seen_key Z :=
    match getitem pending "_id" with
    | Raise e => (Raise e, seen_ids)
    | Ok pending_id =>
        let delete_pending_message_op :=
          mkDbBulkOperation PendingMessage (DeleteOne (JObj [("_id", pending_id)])) in
        match (m <- getitem pending "message" ;; parse_message m)%result with
        | Raise InvalidMessageError =>
            (* If an invalid message somehow ended in pending messages, drop it. *)
            (Ok [delete_pending_message_op], seen_ids)
        | Raise e => (Raise e, seen_ids)
        | Ok message =>
            match (source <- getitem pending "source" ;;
                   chain_name <- py_get source "chain_name" JNull ;;
                   tx_hash <- py_get source "tx_hash" JNull ;;
                   height <- py_get source "height" JNull ;;
                   check_message <- py_get source "check_message" (JBool true) ;;
                   Ok (chain_name, tx_hash, height, check_message))%result with
            | Raise e => (Raise e, seen_ids)
            | Ok (chain_name, tx_hash, height, check_message) =>
                match incoming message chain_name tx_hash height seen_ids
                               check_message pending_id with
                | (Raise e, seen') => (Raise e, seen')
                | (Ok (status, operations), seen') =>
                    if decide (status ≠ RETRYING_LATER)
                    then (Ok (operations ++ [delete_pending_message_op])%list, seen')
                    else (Ok operations, seen')
                end
            end
        end
    end.

End PendingMessages.

(** *** The cleanup sweep at the end of a round of [process_pending_messages] *)

(** A query clause [{path: s}] with a string [s], on documents whose fields
    are scalars. *)
Definition field_is (doc : json) (path : list string) (s : string) : bool :=
  match path_get path doc with
  | Some (JStr s') => String.eqb s s'
  | _ => false
  end.

(** A query clause [{path: {"$gt": h}}] with a number [h]. *)
Definition field_gt (doc : json) (path : list string) (h : Z) : bool :=
  match path_get path doc with
  | Some (JNum x) => h <? x
  | _ => false
  end.

(** The filter of the [DeleteMany] built for one entry of [seen_ids]. *)
Definition clean_filter (key : seen_key) (height : Z) (doc : json) : bool :=
  field_is doc ["message"; "item_hash"] key.1.1
  && field_is doc ["message"; "sender"] key.1.2
  && field_is doc ["source"; "chain_name"] key.2
  && field_gt doc ["source"; "height"] height.

Definition clean_actions (seen_ids : gmap seen_key Z) : list (seen_key * Z) :=
  map_to_list seen_ids.

Definition delete_many (action : seen_key * Z) (docs : list json) : list json :=
  List.filter (fun doc => negb (clean_filter action.1 action.2 doc)) docs.

(** [collection.bulk_write(actions)]; pymongo refuses an empty list. *)
Definition bulk_write (actions : list (seen_key * Z)) (docs : list json)
  : result (list json) :=
  match actions with
  | [] => Raise (OtherError "InvalidOperation")
  | _ => Ok (fold_left (fun ds action => delete_many action ds) actions docs)
  end.

(** Lines 201-217: the sweep runs when the collection holds more than
    100000 documents. The second component is the collection afterwards. *)
Definition clean_pending_messages
    (seen_ids : gmap seen_key Z) (docs : list json) : result unit * list json :=
  if 100000 <? Z.of_nat (length docs) then
    match bulk_write (clean_actions seen_ids) docs with
    | Ok docs' => (Ok tt, docs')
    | Raise e => (Raise e, docs)
    end
  else (Ok tt, docs).

(** [get_pending_message_id]. *)
Definition get_pending_message_id (pending_message : json)
  : result (json * json * json * json) :=
  (source <- py_get pending_message "source" (JObj []) ;;
   chain_name <- py_get source "chain_name" JNull ;;
   height <- py_get source "height" JNull ;;
   message <- getitem pending_message "message" ;;
   item_hash <- getitem message "item_hash" ;;
   sender <- getitem message "sender" ;;
   Ok (item_hash, sender, chain_name, height))%result.

(** ** The message publisher and the processing pipeline

    [aleph.handlers.message_handler] and the processor behind
    [PendingMessageProcessor.make_pipeline] are exercised by the tests of the
    repository but their sources are not among the files embedded above. *)

Inductive MessageStatus : Type :=
| PENDING | PROCESSED | REJECTED | FORGOTTEN | REMOVING.

Inductive ErrorCode : Type :=
| INVALID_FORMAT
| CONTENT_HASH_MISMATCH
| INVALID_SIGNATURE
| CONTENT_VALIDATION_FAILED
| CONTENT_UNAVAILABLE
| VM_VOLUME_NOT_FOUND
| PERMISSION_DENIED
| EXCEEDED_AMT_OF_RETRIES.

Definition MessageOrigin := string.

(** The columns of a pending message. *)
Module PendingMessageDb.
Record t : Type := mk {
    id : Z;
    item_hash : string;
    sender : string;
    chain : Chain;
    type : MessageType;
    signature : option string;
    item_type : ItemType;
    item_content : option string;
    time : Z;
    channel : option string;
    reception_time : datetime;
    retries : Z;
    next_attempt : datetime;
    fetched : bool;
    check_message : bool;
    origin : MessageOrigin;
    source_tx_hash : option string;
  }.
End PendingMessageDb.

(** [RejectedMessageDb], as declared in [aleph/db/models/messages.py]; the
    [message] column holds the raw message. *)
Module RejectedMessageDb.
Record t : Type := mk {
    item_hash : string;
    message : json;
    error_code : ErrorCode;
    details : option json;
    traceback : option string;
  }.
End RejectedMessageDb.

(** A volume reference: [ref] and [use_latest]. *)
Module Volume.
Record t : Type := mk {
    ref : string;
    use_latest : bool;
  }.
End Volume.

Inductive MachineVolume : Type :=
| ImmutableVolume (v : Volume.t)
| EphemeralVolume
| PersistentVolume.

Module ProgramContent.
Record t : Type := mk {
    code : Volume.t;
    runtime : Volume.t;
    data : option Volume.t;
    volumes : list MachineVolume;
  }.
End ProgramContent.

Module InstanceContent.
Record t : Type := mk {
    rootfs_parent : option Volume.t;
    volumes : list MachineVolume;
  }.
End InstanceContent.

Inductive ExecutableContent : Type :=
| Program (c : ProgramContent.t)
| Instance (c : InstanceContent.t).

(** Typed message content: executable content is structured, the content of
    the other message types is kept as JSON. *)
Inductive TypedContent : Type :=
| Executable (c : ExecutableContent)
| OtherContent (c : json).

(** The logical key of a pending message:
    (item_hash, sender, source_chain, source_height). *)
Abbreviation logical_key := (string * string * option Chain * option Z)%type.

(** Events sent to the broker: the logical key of an admitted pending
    message, or the hash of a processed message. *)
Inductive BrokerEvent : Type :=
| PendingMessageEvent (key : logical_key)
| ProcessedMessageEvent (item_hash : string).

(** Modelled from the spec: the tables of the relational store listed in
    sections 3 and 6, and the events sent to the broker; the modules that
    declare the other tables are missing. *)
Record Store : Type := mkStore {
  chain_txs : gmap string ChainTxDb.t;
  pending_messages : list PendingMessageDb.t;
  message_status : gmap string (MessageStatus * datetime);
  messages : gmap string PendingMessageDb.t;
  rejected_messages : gmap string RejectedMessageDb.t;
  message_confirmations : gset (string * string);
  file_store : gmap string StoredFileDb.t;
  file_pins : gmap string string;
  file_tags : gmap string string;
  vms : gmap string ExecutableContent;
  vm_versions : gmap string string;
  broker_events : list BrokerEvent;
}.

(** Modelled from the spec: the outcome of a content fetch (available, or
    currently unavailable), the three outcomes of a type handler
    (section 4.4, step 5), and the services and configuration the publisher
    and the pipeline rely on, none of which is among the sources. *)
Inductive FetchResult : Type :=
| Fetched (content : string)
| Unavailable.

Inductive HandlerResult : Type :=
| Committed
| Rejected (error_code : ErrorCode) (details : option json)
| RetryLater (details : option json).

Class Processing : Type := {
  valid_item_hash : string -> bool;
  sha256 : string -> string;
  fetch_content : ItemType -> string -> FetchResult;
  verify_signature : PendingMessageDb.t -> string -> bool;
  parse_content : MessageType -> string -> option TypedContent;
  other_handler : Store -> PendingMessageDb.t -> json -> HandlerResult * Store;
  backoff_base : Z;
  backoff_cap : Z;
  max_retries : Z;
}.

Definition Chain_of_value (s : string) : option Chain :=
  List.find (fun c => String.eqb (Chain_value c) s)
            [AVAX; BSC; CSDK; DOT; ETH; NEO; NULS; NULS2; SOL; TEZOS].

Definition MessageType_of_value (s : string) : option MessageType :=
  List.find (fun t => String.eqb (MessageType_value t) s)
            [aggregate; forget; instance; post; program; store].

Definition ItemType_of_value (s : string) : option ItemType :=
  List.find (fun t => String.eqb (ItemType_value t) s) [inline; storage; ipfs].

(** An optional string field of a message dict: absent and null both read
    as [None]; a value of another type is malformed. *)
Definition optional_str (d : list (string * json)) (k : string)
  : option (option string) :=
  match dict_get k d with
  | None | Some JNull => Some None
  | Some (JStr s) => Some (Some s)
  | Some _ => None
  end.

Definition required_str (d : list (string * json)) (k : string) : option string :=
  match dict_get k d with
  | Some (JStr s) => Some s
  | _ => None
  end.

(** The typed candidate read from a message dict. *)
Module Candidate.
Record t : Type := mk {
    item_hash : string;
    sender : string;
    chain : Chain;
    type : MessageType;
    signature : option string;
    item_type : ItemType;
    item_content : option string;
    time : Z;
    channel : option string;
  }.
End Candidate.

Definition source_of (db : Store) (tx_hash : option string)
  : option Chain * option Z :=
  match tx_hash with
  | Some h =>
      match chain_txs db !! h with
      | Some tx => (Some (ChainTxDb.chain tx), Some (ChainTxDb.height tx))
      | None => (None, None)
      end
  | None => (None, None)
  end.

Definition make_key (db : Store) (item_hash sender : string)
    (tx_hash : option string) : logical_key :=
  (item_hash, sender, (source_of db tx_hash).1, (source_of db tx_hash).2).

Definition pending_key (db : Store) (pm : PendingMessageDb.t) : logical_key :=
  make_key db (PendingMessageDb.item_hash pm) (PendingMessageDb.sender pm)
           (PendingMessageDb.source_tx_hash pm).

Definition has_key (db : Store) (k : logical_key) (pm : PendingMessageDb.t) : bool :=
  bool_decide (pending_key db pm = k).

Definition set_pending_messages (l : list PendingMessageDb.t) (db : Store) : Store :=
  mkStore (chain_txs db) l (message_status db) (messages db)
          (rejected_messages db) (message_confirmations db) (file_store db)
          (file_pins db) (file_tags db) (vms db) (vm_versions db)
          (broker_events db).

Definition set_message_status (m : gmap string (MessageStatus * datetime))
    (db : Store) : Store :=
  mkStore (chain_txs db) (pending_messages db) m (messages db)
          (rejected_messages db) (message_confirmations db) (file_store db)
          (file_pins db) (file_tags db) (vms db) (vm_versions db)
          (broker_events db).

Definition set_messages (m : gmap string PendingMessageDb.t) (db : Store) : Store :=
  mkStore (chain_txs db) (pending_messages db) (message_status db) m
          (rejected_messages db) (message_confirmations db) (file_store db)
          (file_pins db) (file_tags db) (vms db) (vm_versions db)
          (broker_events db).

Definition set_rejected_messages (m : gmap string RejectedMessageDb.t)
    (db : Store) : Store :=
  mkStore (chain_txs db) (pending_messages db) (message_status db) (messages db)
          m (message_confirmations db) (file_store db)
          (file_pins db) (file_tags db) (vms db) (vm_versions db)
          (broker_events db).

Definition set_message_confirmations (c : gset (string * string))
    (db : Store) : Store :=
  mkStore (chain_txs db) (pending_messages db) (message_status db) (messages db)
          (rejected_messages db) c (file_store db)
          (file_pins db) (file_tags db) (vms db) (vm_versions db)
          (broker_events db).

Definition set_vms (v : gmap string ExecutableContent) (ver : gmap string string)
    (db : Store) : Store :=
  mkStore (chain_txs db) (pending_messages db) (message_status db) (messages db)
          (rejected_messages db) (message_confirmations db) (file_store db)
          (file_pins db) (file_tags db) v ver (broker_events db).

Definition publish_event (body : BrokerEvent) (db : Store) : Store :=
  mkStore (chain_txs db) (pending_messages db) (message_status db) (messages db)
          (rejected_messages db) (message_confirmations db) (file_store db)
          (file_pins db) (file_tags db) (vms db) (vm_versions db)
          (broker_events db ++ [body]).

(** Identifier given to the next inserted pending message. *)
Definition fresh_id (db : Store) : Z :=
  1 + fold_right Z.max 0 (map PendingMessageDb.id (pending_messages db)).

Section Publisher.
Context `{Processing}.

  (** Modelled from the spec: steps 1 and 2 of [add_pending_message]
      (section 4.3), whose source [aleph/handlers/message_handler.py] is
      missing. The candidate keeps the authorized fields only; it is
      well-formed when [item_hash] passes the syntactic check, [time] is a
      number and [type], [chain] and [item_type] belong to their
      enumerations. *)
Definition parse_candidate (message_dict : json) : option Candidate.t :=
    match message_dict with
    | JObj d =>
        item_hash ← required_str d "item_hash";
        sender ← required_str d "sender";
        chain ← required_str d "chain" ≫= Chain_of_value;
        type ← required_str d "type" ≫= MessageType_of_value;
        item_type ← required_str d "item_type" ≫= ItemType_of_value;
        time ← (match dict_get "time" d with Some (JNum t) => Some t | _ => None end);
        signature ← optional_str d "signature";
        item_content ← optional_str d "item_content";
        channel ← optional_str d "channel";
        if valid_item_hash item_hash
        then Some (Candidate.mk item_hash sender chain type signature item_type
                                item_content time channel)
        else None
    | _ => None
    end.

  (** Modelled from the spec: the rejection recorded at admission for a
      malformed message dict (section 4.3, step 2); a row can be keyed only
      when the dict carries an [item_hash] string. *)
Definition reject_invalid_format (message_dict : json) (db : Store) : Store :=
    match message_dict with
    | JObj d =>
        match required_str d "item_hash" with
        | Some h =>
            set_rejected_messages
              (<[h := RejectedMessageDb.mk h message_dict INVALID_FORMAT None None]>
                 (rejected_messages db)) db
        | None => db
        end
    | _ => db
    end.

  (** Modelled from the spec: [MessagePublisher.add_pending_message]
      (section 4.3, steps 1 to 6), whose source
      [aleph/handlers/message_handler.py] is missing. [now] is the clock read
      at insertion. *)
Definition add_pending_message
      (message_dict : json) (reception_time : datetime) (origin : MessageOrigin)
      (tx_hash : option string) (check_message : bool) (now : datetime)
      (db : Store) : option PendingMessageDb.t * Store :=
    match parse_candidate message_dict with
    | None => (None, reject_invalid_format message_dict db)
    | Some c =>
        let key := make_key db (Candidate.item_hash c) (Candidate.sender c) tx_hash in
        let '(row, db1) :=
          match List.find (has_key db key) (pending_messages db) with
          | Some existing => (existing, db)
          | None =>
              let row :=
                PendingMessageDb.mk
                  (fresh_id db) (Candidate.item_hash c) (Candidate.sender c)
                  (Candidate.chain c) (Candidate.type c) (Candidate.signature c)
                  (Candidate.item_type c) (Candidate.item_content c)
                  (Candidate.time c) (Candidate.channel c)
                  reception_time 0 now
                  (bool_decide (Candidate.item_type c = inline))
                  check_message origin tx_hash in
              let status :=
                match message_status db !! Candidate.item_hash c with
                | Some _ => message_status db
                | None => <[Candidate.item_hash c := (PENDING, reception_time)]>
                            (message_status db)
                end in
              (row,
               set_message_status status
                 (set_pending_messages (pending_messages db ++ [row]) db))
          end in
        let db2 :=
          match tx_hash with
          | Some h =>
              set_message_confirmations
                ({[(Candidate.item_hash c, h)]} ∪ message_confirmations db1) db1
          | None => db1
          end in
        (Some row, publish_event (PendingMessageEvent key) db2)
    end.

End Publisher.

(** [get_volume_refs] of [tests/message_processing/test_process_instances.py]:
    the immutable volumes, then the code, runtime and data of a program or
    the parent of the root filesystem of an instance. *)
Definition immutable_volumes (volumes : list MachineVolume) : list Volume.t :=
  omap (fun v => match v with ImmutableVolume r => Some r | _ => None end) volumes.

Definition get_volume_refs (content : ExecutableContent) : list Volume.t :=
  match content with
  | Program c =>
      immutable_volumes (ProgramContent.volumes c)
      ++ [ProgramContent.code c; ProgramContent.runtime c]
      ++ match ProgramContent.data c with Some d => [d] | None => [] end
  | Instance c =>
      immutable_volumes (InstanceContent.volumes c)
      ++ match InstanceContent.rootfs_parent c with Some p => [p] | None => [] end
  end.

(** Modelled from the spec: resolution of a declared volume to a
    [StoredFile] (section 4.5), by tag when the latest version is asked for
    and by exact pin otherwise; the VM handler is missing from the sources. *)
Definition resolve_volume (db : Store) (v : Volume.t) : option StoredFileDb.t :=
  file_hash ← (if Volume.use_latest v then file_tags db !! Volume.ref v
               else file_pins db !! Volume.ref v);
  file_store db !! file_hash.

(** Modelled from the spec: the declared volumes that resolve to no
    [StoredFile] (section 4.5). *)
Definition missing_volumes (db : Store) (content : ExecutableContent)
  : list Volume.t :=
  List.filter (fun v => bool_decide (resolve_volume db v = None))
              (get_volume_refs content).

(** Modelled from the spec: the program/instance handler (section 4.5), whose
    source is missing: any missing ref rejects the message with
    [VM_VOLUME_NOT_FOUND] and the missing refs under [errors]; otherwise a VM
    row and its current-version pointer are created. *)
Definition vm_handler (db : Store) (pm : PendingMessageDb.t)
    (content : ExecutableContent) : HandlerResult * Store :=
  match missing_volumes db content with
  | [] =>
      (Committed,
       set_vms (<[PendingMessageDb.item_hash pm := content]> (vms db))
               (<[PendingMessageDb.item_hash pm := PendingMessageDb.item_hash pm]>
                  (vm_versions db)) db)
  | missing =>
      (Rejected VM_VOLUME_NOT_FOUND
         (Some (JObj [("errors", JList (map (fun v => JStr (Volume.ref v)) missing))])),
       db)
  end.

Definition pending_message_dict (pm : PendingMessageDb.t) : json :=
  JObj [ ("item_hash", JStr (PendingMessageDb.item_hash pm));
         ("sender", JStr (PendingMessageDb.sender pm));
         ("chain", JStr (Chain_value (PendingMessageDb.chain pm)));
         ("type", JStr (MessageType_value (PendingMessageDb.type pm)));
         ("signature", json_of_option_str (PendingMessageDb.signature pm));
         ("item_type", JStr (ItemType_value (PendingMessageDb.item_type pm)));
         ("item_content", json_of_option_str (PendingMessageDb.item_content pm));
         ("time", JNum (PendingMessageDb.time pm));
         ("channel", json_of_option_str (PendingMessageDb.channel pm)) ].

(** Modelled from the spec: deletion of a pending message and transition of
    a message status, the two writes shared by steps 6 and 7 of the
    per-message algorithm (section 4.4); a status row keeps its reception
    time. *)
Definition delete_pending (pm : PendingMessageDb.t) (db : Store) : Store :=
  set_pending_messages
    (List.filter (fun r => negb (PendingMessageDb.id r =? PendingMessageDb.id pm))
                 (pending_messages db)) db.

Definition transition (item_hash : string) (status : MessageStatus)
    (reception_time : datetime) (db : Store) : Store :=
  set_message_status
    (<[item_hash :=
         (status, match message_status db !! item_hash with
                  | Some (_, t) => t
                  | None => reception_time
                  end)]> (message_status db)) db.

Section Pipeline.
Context `{Processing}.

  (** Modelled from the spec: step 7 of the per-message algorithm
      (section 4.4): write the rejection, move the status to rejected and
      delete the pending message. *)
Definition reject (pm : PendingMessageDb.t) (code : ErrorCode)
      (details : option json) (db : Store) : Store :=
    let h := PendingMessageDb.item_hash pm in
    delete_pending pm
      (transition h REJECTED (PendingMessageDb.reception_time pm)
         (set_rejected_messages
            (<[h := RejectedMessageDb.mk h (pending_message_dict pm) code details None]>
               (rejected_messages db)) db)).

  (** Modelled from the spec: step 6, the commit of a processed message. *)
Definition commit (pm : PendingMessageDb.t) (db : Store) : Store :=
    let h := PendingMessageDb.item_hash pm in
    publish_event (ProcessedMessageEvent h)
      (delete_pending pm
         (transition h PROCESSED (PendingMessageDb.reception_time pm)
            (set_messages (<[h := pm]> (messages db)) db))).

(** Modelled from the spec: [backoff(k) = min(base * 2^k, cap)]
    (section 4.4, step 8). *)
Definition backoff (k : Z) : Z := Z.min (backoff_base * 2 ^ k) backoff_cap.

  (** Modelled from the spec: step 8, the rescheduling of a message, which is
      rejected once its retries are used up. *)
Definition retry_later (pm : PendingMessageDb.t) (now : datetime)
      (db : Store) : Store :=
    if max_retries <=? PendingMessageDb.retries pm
    then reject pm EXCEEDED_AMT_OF_RETRIES None db
    else
      let retries := PendingMessageDb.retries pm + 1 in
      let pm' :=
        PendingMessageDb.mk
          (PendingMessageDb.id pm) (PendingMessageDb.item_hash pm)
          (PendingMessageDb.sender pm) (PendingMessageDb.chain pm)
          (PendingMessageDb.type pm) (PendingMessageDb.signature pm)
          (PendingMessageDb.item_type pm) (PendingMessageDb.item_content pm)
          (PendingMessageDb.time pm) (PendingMessageDb.channel pm)
          (PendingMessageDb.reception_time pm) retries (now + backoff retries)
          (PendingMessageDb.fetched pm) (PendingMessageDb.check_message pm)
          (PendingMessageDb.origin pm) (PendingMessageDb.source_tx_hash pm) in
      set_pending_messages
        (map (fun r => if PendingMessageDb.id r =? PendingMessageDb.id pm
                       then pm' else r) (pending_messages db)) db.

  (** Modelled from the spec: step 2 of the per-message algorithm. The content
    of a fetched message is the one it carries; otherwise it is resolved
    according to [item_type] and its sha256 is compared with [item_hash]. *)
Inductive content_resolution : Type :=
  | Resolved (content : string)
  | HashMismatch
  | NotAvailable.

Definition resolve_content (pm : PendingMessageDb.t) : content_resolution :=
    match PendingMessageDb.fetched pm, PendingMessageDb.item_content pm with
    | true, Some c => Resolved c
    | _, _ =>
        let fetched :=
          match PendingMessageDb.item_type pm, PendingMessageDb.item_content pm with
          | inline, Some c => Fetched c
          | t, _ => fetch_content t (PendingMessageDb.item_hash pm)
          end in
        match fetched with
        | Fetched c =>
            if String.eqb (sha256 c) (PendingMessageDb.item_hash pm)
            then Resolved c else HashMismatch
        | Unavailable => NotAvailable
        end
    end.

  (** Modelled from the spec: the per-message algorithm of the pipeline
      (section 4.4, steps 1 to 8), whose source is missing. *)
Definition process_pending_message (id : Z) (now : datetime) (db : Store)
    : Store :=
    match List.find (fun r => PendingMessageDb.id r =? id) (pending_messages db) with
    | None => db
    | Some pm =>
        match resolve_content pm with
        | HashMismatch => reject pm CONTENT_HASH_MISMATCH None db
        | NotAvailable => retry_later pm now db
        | Resolved item_content =>
            if PendingMessageDb.check_message pm && negb (verify_signature pm item_content)
            then reject pm INVALID_SIGNATURE None db
            else
              match parse_content (PendingMessageDb.type pm) item_content with
              | None => reject pm CONTENT_VALIDATION_FAILED None db
              | Some content =>
                  let '(outcome, db') :=
                    match content with
                    | Executable c => vm_handler db pm c
                    | OtherContent c => other_handler db pm c
                    end in
                  match outcome with
                  | Committed => commit pm db'
                  | Rejected code details => reject pm code details db'
                  | RetryLater _ => retry_later pm now db'
                  end
              end
        end
    end.

End Pipeline.

(** ** Executable instances of the services

    Small implementations of the external services, on which the functions
    above can be run. *)

Definition join_with (sep : string) (parts : list string) : string :=
  match parts with
  | [] => ""
  | p :: ps => fold_left (fun acc q => acc ++ sep ++ q) ps p
  end.

Definition double_quote : string := String (Ascii.ascii_of_nat 34) EmptyString.

Definition quote (s : string) : string := double_quote ++ s ++ double_quote.

(** [json.dumps] with its default separators, without escapes. *)
Fixpoint py_json_dumps (v : json) : string :=
  match v with
  | JNull => "null"
  | JBool true => "true"
  | JBool false => "false"
  | JNum n => pretty n
  | JStr s => quote s
  | JList l => "[" ++ join_with ", " (map py_json_dumps l) ++ "]"
  | JObj d =>
      "{" ++ join_with ", "
               (map (fun kv : string * json =>
                       quote (fst kv) ++ ": " ++ py_json_dumps (snd kv)) d)
          ++ "}"
  end.

(** A short stand-in for a digest. *)
Definition toy_digest (s : string) : string :=
  "Qm" ++ pretty (Z.of_nat (String.length s)).

Definition strict_parse_payload (v : json) : option MessageEventPayload.t :=
  match v with
  | JObj d =>
      match dict_get "timestamp" d, dict_get "addr" d,
            dict_get "msgtype" d, dict_get "msgcontent" d with
      | Some (JNum t), Some (JStr a), Some (JStr mt), Some (JStr mc) =>
          Some (MessageEventPayload.mk t a mt mc)
      | _, _, _, _ => None
      end
  | _ => None
  end.

Definition store_content_dumps (c : StoreContent.t) : string :=
  py_json_dumps
    (JObj [ ("address", JStr (StoreContent.address c));
            ("time", JNum (StoreContent.time c));
            ("item_type", JStr (ItemType_value (StoreContent.item_type c)));
            ("item_hash", JStr (StoreContent.item_hash c)) ]).

(** The shapes [ItemHash] accepts: a CIDv0 ([Qm...], 46 characters), a CIDv1
    ([bafy...], 59 characters) or a 64-character digest. *)
Definition is_item_hash (s : string) : bool :=
  let len := String.length s in
  (Nat.eqb len 46 && String.prefix "Qm" s)
  || (Nat.eqb len 59 && String.prefix "bafy" s)
  || Nat.eqb len 64.

Definition py_codec : Codec :=
  {| json_dumps := py_json_dumps;
     get_sha256 := toy_digest;
     StoreContent_json := store_content_dumps;
     StoreContent_validates := fun c => is_item_hash (StoreContent.item_hash c);
     MessageEventPayload_parse_obj := strict_parse_payload |}.

(** A content-addressed store kept in a map from hashes to JSON values. *)
Definition map_storage : StorageService (gmap string json) :=
  {| add_json := fun s v =>
       let h := toy_digest (py_json_dumps v) in (h, <[h := v]> s);
     get_json := fun s h _ =>
       match s !! h with
       | Some v => Ok (MessageContent.mk h v (py_json_dumps v))
       | None => Raise ContentCurrentlyUnavailable
       end;
     pin_hash := fun _ _ => PinDone |}.

(** A publisher that records the dicts it is given. *)
Definition recording_publisher : MessagePublisher (list (json * string)) :=
  {| publisher_add_pending_message := fun p message_dict _ tx_hash _ =>
       (Ok tt, (p ++ [(message_dict, tx_hash)])%list) |}.

Definition empty_node {P : Type} (p : P) : Node (gmap string json) P :=
  mkNode ∅ ∅ ∅ ∅ p [] [].

Definition off_chain_tx (file_hash : string) : ChainTxDb.t :=
  ChainTxDb.mk "0xtx1" ETH 100 1700000000000000 OFF_CHAIN_SYNC 1 (JStr file_hash).

(** A CIDv0, as the indexer reports one in [msgcontent]. *)
Definition sample_cid : string := "QmYwAPJzv5CZsnA625s3Xf2nemtYgPpHdWEz79ojWnPbdG".

Definition smart_contract_tx_of
    (chain : Chain) (msgtype msgcontent : string) : ChainTxDb.t :=
  ChainTxDb.mk "oo1tx" chain 200 1700000000000000 SMART_CONTRACT 1
    (JObj [ ("timestamp", JNum 1699999999); ("addr", JStr "tz1sender");
            ("msgtype", JStr msgtype); ("msgcontent", JStr msgcontent) ]).

Definition smart_contract_tx (chain : Chain) (msgtype : string) : ChainTxDb.t :=
  smart_contract_tx_of chain msgtype sample_cid.

Definition sample_message (item_hash : string) : MessageDb.t :=
  MessageDb.mk item_hash post ETH "0xsender" (Some "0xsig") inline
               (Some "{}") (JObj []) 1700000000000000 None 2.

(** A ChainTx carries a sync envelope when its protocol, version and
    content are the three fields of the envelope. *)
Definition carries_envelope (tx : ChainTxDb.t) (envelope : json) : Prop :=
  getitem envelope "protocol"
  = Ok (JStr (ChainSyncProtocol_value (ChainTxDb.protocol tx)))
  ∧ getitem envelope "version" = Ok (JNum (ChainTxDb.protocol_version tx))
  ∧ getitem envelope "content" = Ok (ChainTxDb.content tx).

(** The storage service returns, for the hash under which [v] was stored,
    exactly [v]. *)
Definition returns_what_was_stored {S : Type} `{StorageService S}
    (st : S) (v : json) : Prop :=
  ∃ mc, get_json (add_json st v).2 (add_json st v).1 60 = Ok mc
        ∧ MessageContent.value mc = v.

Definition two_messages : list MessageDb.t :=
  [sample_message "item-hash-1"; sample_message "item-hash-2"].

(** The tx that carries the envelope produced for [two_messages] with a
    threshold of 50, and a node whose storage is the one left by the
    encoder. *)
Definition bulk_hash : string :=
  (add_json (StorageService := map_storage) ∅ (on_chain_chaindata two_messages)).1.

Definition bulk_tx : ChainTxDb.t :=
  ChainTxDb.mk "0xtx2" ETH 101 1700000000000000 OFF_CHAIN_SYNC 1 (JStr bulk_hash).

Definition bulk_node : Node (gmap string json) (list (json * string)) :=
  mkNode (add_json (StorageService := map_storage) ∅
            (on_chain_chaindata two_messages)).2
         ∅ ∅ ∅ [] [] [].

(** The Python values a [for] loop can iterate among the JSON values. *)
Definition iterable (v : json) : Prop :=
  match v with
  | JStr _ | JList _ | JObj _ => True
  | _ => False
  end.

(** A node with one pending tx that carries two messages inline, and one
    with a pending off-chain tx whose file is not in the storage. *)
Definition inline_tx : ChainTxDb.t :=
  ChainTxDb.mk "0xtx3" ETH 102 1700000000000000 ON_CHAIN_SYNC 1
    (JObj [("messages", JList (map message_to_dict two_messages))]).

Definition node_with_tx (tx : ChainTxDb.t)
  : Node (gmap string json) (list (json * string)) :=
  mkNode ∅ {[ChainTxDb.hash tx := tx]} ∅ ∅ [] [] [].

(** A storage service like [map_storage] whose pin raises, as
    [StorageService.pin_hash] does when the IPFS daemon answers with an
    error. *)
Definition unpinnable_storage : StorageService (gmap string json) :=
  {| add_json := add_json (StorageService := map_storage);
     get_json := get_json (StorageService := map_storage);
     pin_hash := fun _ _ => PinRaise (OtherError "APIError") |}.

(** A publisher whose call raises, as a call does that loses its database
    connection. *)
Definition failing_publisher : MessagePublisher (list (json * string)) :=
  {| publisher_add_pending_message := fun p _ _ _ _ =>
       (Raise (OtherError "OperationalError"), p) |}.

(** A node whose storage holds, under [QmFile], a file in the format the
    off-chain decoder reads, with a pending off-chain tx that refers to
    it. *)
Definition sync_file : json :=
  JObj [("messages", JList (map message_to_dict two_messages))].

Definition node_with_file : Node (gmap string json) (list (json * string)) :=
  mkNode {["QmFile" := sync_file]} {["0xtx1" := off_chain_tx "QmFile"]}
         ∅ ∅ [] [] [].

(** A message handler that accepts the dicts carrying an [item_hash]
    string and handles every message at once. *)
Definition simple_handling : MessageHandling json :=
  {| parse_message := fun m =>
       match m with
       | JObj d =>
           match dict_get "item_hash" d with
           | Some (JStr _) => Ok m
           | _ => Raise InvalidMessageError
           end
       | _ => Raise InvalidMessageError
       end;
     incoming := fun _ _ _ _ seen _ _ => (Ok (MESSAGE_HANDLED, []), seen) |}.

(** Documents of the pending-message collection. *)
Definition pending_doc (id : Z) (item_hash sender chain_name : string) (height : Z)
  : json :=
  JObj [ ("_id", JNum id);
         ("message", JObj [ ("item_hash", JStr item_hash); ("sender", JStr sender);
                            ("type", JStr "POST"); ("time", JNum 1700000000) ]);
         ("source", JObj [ ("chain_name", JStr chain_name); ("tx_hash", JStr "0xtx");
                           ("height", JNum height); ("check_message", JBool true) ]) ].

Definition invalid_pending_doc : json :=
  JObj [ ("_id", JNum 7);
         ("message", JObj [ ("sender", JStr "0xsender") ]);
         ("source", JObj [ ("chain_name", JStr "ETH") ]) ].

(** A collection of 100002 documents: the same message seen at heights 10 and
    5, and 100000 other documents. *)
Definition doc_at_10 : json := pending_doc 1 "item-hash-1" "0xsender" "ETH" 10.
Definition doc_at_5 : json := pending_doc 2 "item-hash-1" "0xsender" "ETH" 5.
Definition other_doc : json := pending_doc 3 "item-hash-2" "0xother" "ETH" 7.

Definition big_collection : list json :=
  doc_at_10 :: doc_at_5 :: replicate (Z.to_nat 100000) other_doc.

Definition seen_at_5 : gmap seen_key Z := {[ ("item-hash-1", "0xsender", "ETH") := 5 ]}.

(** The number of pending messages that carry a logical key. *)
Definition count_key (db : Store) (k : logical_key) : nat :=
  length (List.filter (has_key db k) (pending_messages db)).

(** The instance message of [tests/message_processing/test_process_instances.py],
    with the root filesystem parent and the one immutable volume it declares. *)
Definition fixture_instance_content : ExecutableContent :=
  (Instance
    (InstanceContent.mk
       (Some (Volume.mk "549ec451d9b099cad112d4aaa2c00ac40fb6729a92ff252ff22eef0b5c3cb613" true))
       [ ImmutableVolume
           (Volume.mk "5f31b0706f59404fad3d0bff97ef89ddf24da4761608ea0646329362c662ba51" false);
         EphemeralVolume; PersistentVolume; PersistentVolume; PersistentVolume ])).

Definition fixture_instance_message : PendingMessageDb.t :=
  PendingMessageDb.mk
    1 "734a1287a2b7b5be060312ff5b05ad1bcf838950492e3428f2ac6437a1acad26"
    "0x9319Ad3B7A8E0eE24f2E639c40D8eD124C5520Ba" ETH instance None inline
    (Some "instance-content") 1619017773895057 None 1619017774000000 0
    1672531200000000 true false "p2p" None.

Definition empty_store : Store :=
  mkStore ∅ [] ∅ ∅ ∅ ∅ ∅ ∅ ∅ ∅ ∅ [].

Definition instance_store : Store :=
  set_message_status
    {[ PendingMessageDb.item_hash fixture_instance_message
       := (PENDING, PendingMessageDb.reception_time fixture_instance_message) ]}
    (set_pending_messages [fixture_instance_message] empty_store).

(** A processing environment for the examples: every signature verifies,
    nothing can be fetched, and the content of an instance or program message
    parses to the fixture. *)
Definition toy_processing : Processing :=
  {| valid_item_hash := fun s => negb (String.eqb s "");
     sha256 := toy_digest;
     fetch_content := fun _ _ => Unavailable;
     verify_signature := fun _ _ => true;
     parse_content := fun t _ =>
       match t with
       | instance | program => Some (Executable fixture_instance_content)
       | _ => Some (OtherContent JNull)
       end;
     other_handler := fun db _ _ => (Committed, db);
     backoff_base := 1;
     backoff_cap := 3600;
     max_retries := 10 |}.

Definition fixture_message_dict : json :=
  JObj [ ("item_hash", JStr "4c33dd1ebf61bbb4342d8258b591fcd52cca73fd7c425542f78311d8f45ba274");
         ("sender", JStr "0x696879aE4F6d8DaDD5b8F1cbb1e663B89b08f106");
         ("chain", JStr "ETH");
         ("type", JStr "POST");
         ("item_type", JStr "storage");
         ("time", JNum 1652803407);
         ("signature", JStr "0xsignature");
         ("channel", JStr "TEST");
         ("extra", JBool true) ].

(** ** Further functions of the sources *)

(** *** [aleph/chains/chaindata.py] and [aleph/jobs/process_pending_txs.py] *)

(** [ChainDataService.incoming_chaindata]: the tx is added to the session as a
    pending tx. *)
Definition incoming_chaindata {S P} (tx : ChainTxDb.t) (n : Node S P) : Node S P :=
  set_pending_txs (<[ChainTxDb.hash tx := tx]> (pending_txs n)) n.

Section PendingTxLoop.
Context `{Codec} {S P : Type} `{StorageService S} `{MessagePublisher P}.

(** The loop of [process_pending_txs] over the bodies the queue delivers
    from position [i] on: each one is handled with the same [seen_ids] set,
    and an exception raised while handling one leaves the loop. [clock]
    gives the time read while the body at a position is handled. *)
Fixpoint handle_queue
    (ipfs_enabled : bool) (clock : nat → datetime) (i : nat)
    (bodies : list string) (seen_ids : option (gset string)) (n : Node S P)
  : result unit * option (gset string) * Node S P :=
  match bodies with
  | [] => (Ok tt, seen_ids, n)
  | pending_tx_hash :: rest =>
      match handle_pending_tx ipfs_enabled (clock i) pending_tx_hash seen_ids n with
      | (Ok _, seen', n') => handle_queue ipfs_enabled clock (Datatypes.S i) rest seen' n'
      | (Raise e, seen', n') => (Raise e, seen', n')
      end
  end.

(** [PendingTxProcessor.process_pending_txs], on the bodies delivered during
    one run: [seen_ids] starts empty. *)
Definition process_pending_txs
    (ipfs_enabled : bool) (clock : nat → datetime) (bodies : list string)
    (n : Node S P) : result unit * option (gset string) * Node S P :=
  handle_queue ipfs_enabled clock 0%nat bodies (Some ∅) n.

End PendingTxLoop.

(** *** [aleph/jobs/process_pending_messages.py] *)

(** [validate_pending_message]; both messages name [pending['_id']]. *)
Definition validate_pending_message (pending : json) : result unit :=
  match py_get pending "message" JNull with
  | Raise e => Raise e
  | Ok JNull =>
      match getitem pending "_id" with
      | Ok _ => Raise (ValueError "Found PendingMessage with empty message")
      | Raise e => Raise e
      end
  | Ok (JObj _) => Ok tt
  | Ok _ =>
      match getitem pending "_id" with
      | Ok _ => Raise (ValueError "Pending message is not a dictionary and cannot be read")
      | Raise e => Raise e
      end
  end.

(** The filter that the actions of a sweep apply together. *)
Definition swept (actions : list (seen_key * Z)) (doc : json) : bool :=
  existsb (fun action : seen_key * Z => clean_filter action.1 action.2 doc) actions.

(** *** [aleph/db/models/messages.py] *)

(** [d[k] = v] on a dict: the value of an existing key is replaced in place, a
    new key is added at the end. *)
Fixpoint dict_set (k : string) (v : json) (d : list (string * json))
  : list (string * json) :=
  match d with
  | [] => [(k, v)]
  | (k', v') :: d' =>
      if String.eqb k k' then (k, v) :: d' else (k', v') :: dict_set k v d'
  end.

(** [d.get(k) is None]: the key is missing or its value is [None]. *)
Definition get_is_None (k : string) (d : list (string * json)) : bool :=
  match dict_get k d with
  | None | Some JNull => true
  | Some _ => false
  end.

(** [MessageDb._coerce_content]. *)
Definition _coerce_content (pending_message : PendingMessageDb.t)
    (content_dict : list (string * json)) : list (string * json) :=
  let content_dict1 :=
    if get_is_None "address" content_dict
    then dict_set "address" (JStr (PendingMessageDb.sender pending_message)) content_dict
    else content_dict in
  if get_is_None "time" content_dict1
  then dict_set "time" (JNum (timestamp (PendingMessageDb.time pending_message)))
                content_dict1
  else content_dict1.

(** The content models of [aleph_message] behind [CONTENT_TYPE_MAP], over the
    type [C] of parsed contents: [parse_obj] of the model of a message type
    ([None] stands for a [ValidationError]), and what
    [datetime.fromtimestamp] does with a value. *)
Class ContentModels (C : Type) : Type := {
  content_parse_obj : MessageType → json → option C;
  fromtimestamp : json → result unit;
}.

Section MessageModels.
Context {C : Type} `{ContentModels C}.

(** [validate_message_content]: a [ValueError] of the conversion of the time
    is turned into a [ValidationError]. *)
Definition validate_message_content
    (message_type : MessageType) (content_dict : list (string * json)) : result C :=
  match content_parse_obj message_type (JObj content_dict) with
  | None => Raise ValidationError
  | Some content =>
      match getitem (JObj content_dict) "time" with
      | Raise e => Raise e
      | Ok t =>
          match fromtimestamp t with
          | Ok _ => Ok content
          | Raise (ValueError _) => Raise ValidationError
          | Raise e => Raise e
          end
      end
  end.

(** [MessageDb.from_pending_message]: the message and its parsed content. *)
Definition from_pending_message
    (pending_message : PendingMessageDb.t) (content_dict : list (string * json))
    (content_size : Z) : result (MessageDb.t * C) :=
  let content_dict := _coerce_content pending_message content_dict in
  match validate_message_content (PendingMessageDb.type pending_message) content_dict with
  | Raise e => Raise e
  | Ok parsed_content =>
      Ok (MessageDb.mk
            (PendingMessageDb.item_hash pending_message)
            (PendingMessageDb.type pending_message)
            (PendingMessageDb.chain pending_message)
            (PendingMessageDb.sender pending_message)
            (PendingMessageDb.signature pending_message)
            (PendingMessageDb.item_type pending_message)
            (PendingMessageDb.item_content pending_message)
            (JObj content_dict)
            (PendingMessageDb.time pending_message)
            (PendingMessageDb.channel pending_message)
            content_size,
          parsed_content)
  end.

End MessageModels.

(** *** [aleph/services/cost.py] *)

(** The units of [aleph.toolkit.constants]. *)
Definition MiB : Z := 1024 * 1024.
Definition GiB : Z := 1024 * 1024 * 1024.

(** Executable content with what the cost depends on: resources, the
    persistence and internet access of a program, and for each volume either
    the file it refers to or its size. *)
Module Exec.
Inductive volume : Type :=
| Immutable (v : Volume.t)
| Sized (size_mib : Z).

Record resources : Type := mkResources {
  vcpus : Z;
  memory : Z;
}.

Record program : Type := mkProgram {
  code : Volume.t;
  runtime : Volume.t;
  data : option Volume.t;
  on_persistent : bool;
  environment_internet : bool;
  program_resources : resources;
  program_volumes : list volume;
}.

Record instance : Type := mkInstance {
  rootfs_size_mib : Z;
  instance_resources : resources;
  instance_volumes : list volume;
}.

Inductive content : Type :=
| ProgramContent (c : program)
| InstanceContent (c : instance).

Definition content_resources (c : content) : resources :=
  match c with
  | ProgramContent p => program_resources p
  | InstanceContent i => instance_resources i
  end.

Definition content_volumes (c : content) : list volume :=
  match c with
  | ProgramContent p => program_volumes p
  | InstanceContent i => instance_volumes i
  end.
End Exec.

(** The two tables [_get_file_from_ref] reads, each row with its file. *)
Record FileSession : Type := mkFileSession {
  session_file_tags : gmap string StoredFileDb.t;
  session_message_file_pins : gmap string StoredFileDb.t;
}.

(** A value, or the [RuntimeError] raised by [get_volume_size]. *)
Inductive priced (A : Type) : Type :=
| Priced (a : A)
| RuntimeError (message : string).
Arguments Priced {A} a.
Arguments RuntimeError {A} message.

Definition _get_file_from_ref (session : FileSession) (ref : string)
    (use_latest : bool) : option StoredFileDb.t :=
  if use_latest then session_file_tags session !! ref
  else session_message_file_pins session !! ref.

(** The volumes [get_volume_size] looks up, in the order of its list. *)
Definition ref_volumes (content : Exec.content) : list Volume.t :=
  (match content with
   | Exec.ProgramContent c =>
       [Exec.code c; Exec.runtime c]
       ++ match Exec.data c with Some d => [d] | None => [] end
   | Exec.InstanceContent _ => []
   end
   ++ omap (fun v => match v with Exec.Immutable r => Some r | _ => None end)
           (Exec.content_volumes content))%list.

(** The sizes, in MiB, of the volumes that carry one: the root filesystem of
    an instance, then the volumes that are not immutable. *)
Definition sized_volumes (content : Exec.content) : list Z :=
  (match content with
   | Exec.InstanceContent c => [Exec.rootfs_size_mib c]
   | Exec.ProgramContent _ => []
   end
   ++ omap (fun v => match v with Exec.Sized s => Some s | _ => None end)
           (Exec.content_volumes content))%list.

Fixpoint add_file_sizes (session : FileSession) (volumes : list Volume.t)
    (total_volume_size : Z) : priced Z :=
  match volumes with
  | [] => Priced total_volume_size
  | volume :: rest =>
      match _get_file_from_ref session (Volume.ref volume) (Volume.use_latest volume) with
      | None =>
          RuntimeError ("Could not find entry in file tags for "
                          ++ Volume.ref volume ++ ".")
      | Some file =>
          add_file_sizes session rest (total_volume_size + StoredFileDb.size file)
      end
  end.

Definition get_volume_size (session : FileSession) (content : Exec.content)
  : priced Z :=
  match add_file_sizes session (ref_volumes content) 0 with
  | RuntimeError m => RuntimeError m
  | Priced total =>
      Priced (fold_left (fun acc size_mib => acc + size_mib * MiB)
                        (sized_volumes content) total)
  end.

Definition is_microvm (content : Exec.content) : bool :=
  match content with
  | Exec.ProgramContent c => negb (Exec.on_persistent c)
  | Exec.InstanceContent _ => false
  end.

(** The storage, in bytes, beyond the free allowance
    ([additional_storage] in [get_additional_storage_price]). *)
Definition additional_storage (content : Exec.content) (total_volume_size : Z) : Z :=
  let nb_compute_units := Exec.vcpus (Exec.content_resources content) in
  let free_storage_per_compute_unit :=
    if is_microvm content then 2 * GiB else 20 * GiB in
  Z.max (total_volume_size - free_storage_per_compute_unit * nb_compute_units) 0.

(** [get_additional_storage_price]; the decimal quotient is taken exactly. *)
Definition get_additional_storage_price (content : Exec.content)
    (session : FileSession) : priced Q :=
  match get_volume_size session content with
  | RuntimeError m => RuntimeError m
  | Priced total_volume_size =>
      Priced (inject_Z (additional_storage content total_volume_size)
              / inject_Z 20 / inject_Z MiB)%Q
  end.

(** The float nearest to an integer, as an integer: [m] rounded to 53
    significant bits, a tie going to the even significand. *)
Definition nearest_float (m : Z) : Z :=
  let a := Z.abs m in
  let dropped := Z.log2 a - 52 in
  if dropped <=? 0 then m
  else
    let unit := 2 ^ dropped in
    let q := a / unit in
    let rest := a mod unit in
    let q' := if (unit <? 2 * rest) || ((2 * rest =? unit) && Z.odd q)
              then q + 1 else q in
    Z.sgn m * (q' * unit).

(** [_get_nb_compute_units]. [memory / 2048] is the true division of two
    integers: the float nearest to the quotient. A division by a power of
    two only moves the exponent, so this float is the float nearest to the
    memory, divided by 2048 without a further rounding, and [math.ceil]
    returns the ceiling of that value as an integer. (The division raises
    [OverflowError] for a memory whose quotient is beyond the range of the
    floats, of about [2 ^ 1035] and more; such a memory is outside this
    definition.) *)
Definition _get_nb_compute_units (content : Exec.content) : Z :=
  let cpu := Exec.vcpus (Exec.content_resources content) in
  let memory :=
    - ((- nearest_float (Exec.memory (Exec.content_resources content))) / 2048) in
  if memory <=? cpu then cpu else memory.

Definition _get_compute_unit_multiplier (content : Exec.content) : Z :=
  match content with
  | Exec.ProgramContent c =>
      if negb (Exec.on_persistent c) && Exec.environment_internet c then 1 + 1 else 1
  | Exec.InstanceContent _ => 1
  end.

(** [compute_cost]; the decimal product and sum are taken exactly. *)
Definition compute_cost (session : FileSession) (content : Exec.content)
  : priced Q :=
  let compute_unit_cost := if is_microvm content then 200 else 2000 in
  let compute_units_required := _get_nb_compute_units content in
  let compute_unit_multiplier := _get_compute_unit_multiplier content in
  let compute_unit_price :=
    inject_Z (compute_units_required * compute_unit_multiplier * compute_unit_cost) in
  match get_additional_storage_price content session with
  | RuntimeError m => RuntimeError m
  | Priced storage_price => Priced (compute_unit_price + storage_price)%Q
  end.

(** *** [aleph/web/controllers/prices.py] *)

(** The HTTP exceptions [get_executable_message] raises, and the failure of
    its assertion. *)
Inductive HttpError : Type :=
| HTTPBadRequest
| HTTPNotFound
| HTTPProcessing
| HTTPGone
| AssertionFailed.

Definition status_code (e : HttpError) : option Z :=
  match e with
  | HTTPBadRequest => Some 400
  | HTTPNotFound => Some 404
  | HTTPProcessing => Some 102
  | HTTPGone => Some 410
  | AssertionFailed => None
  end.

(** The two tables the controller reads. *)
Record MessageSession : Type := mkMessageSession {
  session_message_status : gmap string MessageStatus;
  session_messages : gmap string MessageDb.t;
}.

(** The entry of [MESSAGE_STATUS_EXCEPTIONS] for a status. *)
Definition MESSAGE_STATUS_EXCEPTIONS (status : MessageStatus) : option HttpError :=
  match status with
  | PENDING => Some HTTPProcessing
  | REJECTED => Some HTTPNotFound
  | FORGOTTEN => Some HTTPGone
  | _ => None
  end.

Section Prices.
(** [ItemHash(s)] of [aleph_message] accepts [s] or raises [ValueError]. *)
Variable ItemHash_accepts : string → bool.

Definition get_executable_message (session : MessageSession)
    (item_hash_str : string) : HttpError + MessageDb.t :=
  if negb (ItemHash_accepts item_hash_str) then inl HTTPBadRequest
  else
    match session_message_status session !! item_hash_str with
    | None => inl HTTPNotFound
    | Some status =>
        match MESSAGE_STATUS_EXCEPTIONS status with
        | Some exception => inl exception
        | None =>
            match status with
            | PROCESSED =>
                match session_messages session !! item_hash_str with
                | None => inl HTTPNotFound
                | Some message =>
                    match MessageDb.type message with
                    | instance | program => inr message
                    | _ => inl HTTPBadRequest
                    end
                end
            | _ => inl AssertionFailed
            end
        end
    end.

End Prices.

(** *** Values for the examples of the further properties *)

(** A file in the format the off-chain decoder reads, stored under
    [QmBundle], and two pending off-chain txs that refer to it. *)
Definition bundle_file : json :=
  JObj [("messages", JList (map message_to_dict two_messages))].

Definition bundle_storage : gmap string json := {["QmBundle" := bundle_file]}.

Definition bundle_tx (tx_hash : string) : ChainTxDb.t :=
  ChainTxDb.mk tx_hash ETH 103 1700000000000000 OFF_CHAIN_SYNC 1 (JStr "QmBundle").

Definition bundle_node : Node (gmap string json) (list (json * string)) :=
  mkNode bundle_storage
         {["0xtxA" := bundle_tx "0xtxA"; "0xtxB" := bundle_tx "0xtxB"]}
         ∅ ∅ [] [] [].

(** A storage service whose fetch raises [e], whatever the hash. *)
Definition failing_storage (e : exn) : StorageService (gmap string json) :=
  {| add_json := add_json (StorageService := map_storage);
     get_json := fun _ _ _ => Raise e;
     pin_hash := fun _ _ => PinDone |}.

(** [d.get(k, default)] on a dict that is known to be one. *)
Definition get_or (d : list (string * json)) (k : string) (default : json) : json :=
  match dict_get k d with
  | Some v => v
  | None => default
  end.

(** A handler that asks to retry every message later, and a pending document
    without a [source]. *)
Definition retrying_handling : MessageHandling json :=
  {| parse_message := fun m => Ok m;
     incoming := fun _ _ _ _ seen _ _ =>
       (Ok (RETRYING_LATER, [mkDbBulkOperation PendingMessage
                               (UpdateOne (JObj []) (JObj []) false)]), seen) |}.

Definition sourceless_doc : json :=
  JObj [ ("_id", JNum 9);
         ("message", JObj [ ("item_hash", JStr "item-hash-3");
                            ("sender", JStr "0xsender") ]) ].

Definition p2p_doc : json :=
  JObj [ ("_id", JNum 4);
         ("message", JObj [ ("item_hash", JStr "item-hash-1");
                            ("sender", JStr "0xsender") ]);
         ("source", JObj [ ("chain_name", JNull); ("height", JNull) ]) ].

(** Content models for the examples: every dict with a numeric [time] is
    accepted and kept as it is. *)
Definition permissive_models : ContentModels json :=
  {| content_parse_obj := fun _ v => Some v;
     fromtimestamp := fun t =>
       match t with
       | JNum _ => Ok tt
       | _ => Raise TypeError
       end |}.

(** The sum of a list of integers. *)
Definition Zsum (l : list Z) : Z := fold_right Z.add 0 l.

(** The sizes of the files that the volumes of a list resolve to. *)
Definition file_sizes (session : FileSession) (volumes : list Volume.t) : list Z :=
  omap (fun v => StoredFileDb.size
                   <$> _get_file_from_ref session (Volume.ref v) (Volume.use_latest v))
       volumes.

(** The free storage, in bytes, of an executable content. *)
Definition free_storage (content : Exec.content) : Z :=
  (if is_microvm content then 2 * GiB else 20 * GiB)
  * Exec.vcpus (Exec.content_resources content).

(** The price of a compute unit. *)
Definition compute_unit_cost (content : Exec.content) : Z :=
  if is_microvm content then 200 else 2000.

(** A session with a pinned runtime and a tagged code file, and a program
    that uses them. *)
Definition cost_session : FileSession :=
  mkFileSession {["code-ref" := StoredFileDb.mk "QmCode" (3 * GiB)]}
                {["runtime-ref" := StoredFileDb.mk "QmRuntime" (1 * GiB)]}.

(** An instance whose memory is the first integer a float does not hold. *)
Definition huge_instance : Exec.content :=
  Exec.InstanceContent
    (Exec.mkInstance 20480 (Exec.mkResources 1 (2 ^ 53 + 1)) []).

Definition sample_program (data : option Volume.t) : Exec.content :=
  Exec.ProgramContent
    (Exec.mkProgram (Volume.mk "code-ref" true) (Volume.mk "runtime-ref" false)
                    data false true (Exec.mkResources 1 4096)
                    [Exec.Sized 1024]).

(** A session of the price controller: one processed instance, one processed
    post, one pending and one forgotten message. *)
Definition processed_instance : MessageDb.t :=
  MessageDb.mk "hash-instance" instance ETH "0xsender" None inline
               (Some "{}") (JObj []) 1700000000000000 None 2.

Definition price_session : MessageSession :=
  mkMessageSession
    {[ "hash-instance" := PROCESSED; "hash-post" := PROCESSED;
       "hash-pending" := PENDING; "hash-forgotten" := FORGOTTEN ]}
    {[ "hash-instance" := processed_instance;
       "hash-post" := sample_message "hash-post" ]}.

(** * Properties *)

(** ** The chain data service *)

Section ChainDataProperties.
Context `{Codec} {S P : Type} `{StorageService S}.

Lemma fetch_off_chain_messages_logs ipfs_enabled now tx h (n : Node S P) :
  ∃ pins, fetch_log (fetch_off_chain_messages ipfs_enabled now tx h n).2 = (fetch_log n ++ [h])%list
          ∧ pin_log (fetch_off_chain_messages ipfs_enabled now tx h n).2 = (pin_log n ++ pins)%list.
Proof.
  unfold fetch_off_chain_messages.
  destruct (get_json _ _ _) as [mc|e]; simpl.
  - destruct (_get_sync_messages _) as [ms|e]; simpl; [|exists []; by rewrite app_nil_r].
    destruct (py_len ms); simpl; [|exists []; by rewrite app_nil_r].
    destruct ipfs_enabled; simpl; [|exists []; by rewrite app_nil_r].
    exists [h]. by destruct (pin_hash _ _).
  - exists []. rewrite app_nil_r. by destruct (is_AlephStorageException e), (is_Exception e).
Qed.

Lemma off_chain_already_seen ipfs_enabled now tx h seen (n : Node S P) :
  ChainTxDb.content tx = JStr h → h ∈ seen →
  _get_tx_messages_off_chain_protocol ipfs_enabled now tx (Some seen) n
  = (Ok (JList []), Some seen, n).
Proof.
  intros Hc Hin. unfold _get_tx_messages_off_chain_protocol. rewrite Hc.
  by rewrite decide_True.
Qed.

(** C9. In the off-chain protocol, when a [seen_ids] set is supplied and does
    not hold the content hash of the tx yet, the hash is added to the set
    before the storage fetch is attempted (the fetch is logged once, after
    the addition). If the fetch then fails, the call raises, the hash stays
    in the set, and every later call for the same hash with that set returns
    the empty list and leaves the node as it is: no fetch is logged again,
    whatever the storage holds by then. *)
Theorem off_chain_hash_seen_before_fetch
    ipfs_enabled now tx h (seen : gset string) (n : Node S P) e :
  ChainTxDb.content tx = JStr h →
  h ∉ seen →
  (fetch_off_chain_messages ipfs_enabled now tx h n).1 = Raise e →
  ∃ n1,
    _get_tx_messages_off_chain_protocol ipfs_enabled now tx (Some seen) n
    = (Raise e, Some ({[h]} ∪ seen), n1)
    ∧ fetch_log n1 = (fetch_log n ++ [h])%list
    ∧ ∀ ipfs_enabled' now' tx' (n2 : Node S P),
        ChainTxDb.content tx' = JStr h →
        _get_tx_messages_off_chain_protocol ipfs_enabled' now' tx' (Some ({[h]} ∪ seen)) n2
        = (Ok (JList []), Some ({[h]} ∪ seen), n2).
Proof.
  intros Hc Hnotin Hfail.
  exists (fetch_off_chain_messages ipfs_enabled now tx h n).2. split; [|split].
  - unfold _get_tx_messages_off_chain_protocol. rewrite Hc.
    rewrite decide_False by done.
    destruct (fetch_off_chain_messages ipfs_enabled now tx h n) as [r n1] eqn:E.
    simpl in *. by subst r.
  - destruct (fetch_off_chain_messages_logs ipfs_enabled now tx h n) as (pins & Hf & _).
    exact Hf.
  - intros ipfs_enabled' now' tx' n2 Hc'. apply (off_chain_already_seen _ _ _ h); [done|].
    set_solver.
Qed.

(** C2, as the code has it. For every ChainTx with protocol smart_contract
    and version 1 whose content parses as a message event payload with a
    msgtype other than STORE_IPFS, [get_tx_messages] raises [ValueError]
    (the message shows the outcome of the comparison, [True]); [seen_ids]
    and the node are left as they were. *)
Theorem smart_contract_unexpected_msgtype_raises_ValueError
    ipfs_enabled now tx seen (n : Node S P) payload :
  ChainTxDb.protocol tx = SMART_CONTRACT →
  ChainTxDb.protocol_version tx = 1 →
  MessageEventPayload_parse_obj (ChainTxDb.content tx) = Some payload →
  MessageEventPayload.message_type payload ≠ "STORE_IPFS" →
  get_tx_messages ipfs_enabled now tx seen n
  = (Raise (ValueError "Unexpected message type: True"), seen, n).
Proof.
  intros Hp Hv Hparse Hty.
  unfold get_tx_messages, _get_tx_messages_smart_contract_protocol.
  rewrite Hp, Hv, Hparse.
  apply String.eqb_neq in Hty. by rewrite Hty.
Qed.

(** C3, as the code has it. For every ChainTx with protocol smart_contract
    and version 1 whose content parses as a payload with msgtype STORE_IPFS:
    when the constructor of [StoreContent] accepts the address, the
    timestamp, the item type ipfs and the msgcontent as item hash,
    [get_tx_messages] returns exactly one message dict, with item_type
    inline, a null signature, the sender equal to the payload's addr, the
    time equal to the epoch value of the tx's datetime, item_content the
    JSON of the synthesized store content, item_hash its sha256, and the
    chain equal to the value of [Chain.TEZOS], whatever the chain of the
    tx; when the constructor refuses them, [get_tx_messages] raises its
    [ValidationError] and returns no message. [seen_ids] and the node are
    left as they were in both cases. *)
Theorem smart_contract_store_ipfs_message
    ipfs_enabled now tx seen (n : Node S P) payload :
  ChainTxDb.protocol tx = SMART_CONTRACT →
  ChainTxDb.protocol_version tx = 1 →
  MessageEventPayload_parse_obj (ChainTxDb.content tx) = Some payload →
  MessageEventPayload.message_type payload = "STORE_IPFS" →
  let content :=
    StoreContent.mk (MessageEventPayload.addr payload)
                    (MessageEventPayload.timestamp payload) ipfs
                    (MessageEventPayload.message_content payload) in
  (StoreContent_validates content = true →
   ∃ message item_content,
     get_tx_messages ipfs_enabled now tx seen n = (Ok (JList [JObj message]), seen, n)
     ∧ item_content = StoreContent_json content
     ∧ dict_get "item_content" message = Some (JStr item_content)
     ∧ dict_get "item_hash" message = Some (JStr (get_sha256 item_content))
     ∧ dict_get "item_type" message = Some (JStr (ItemType_value inline))
     ∧ dict_get "signature" message = Some JNull
     ∧ dict_get "sender" message = Some (JStr (MessageEventPayload.addr payload))
     ∧ dict_get "time" message = Some (JNum (timestamp (ChainTxDb.datetime tx)))
     ∧ dict_get "type" message = Some (JStr (MessageType_value store))
     ∧ dict_get "chain" message = Some (JStr (Chain_value TEZOS)))
  ∧ (StoreContent_validates content = false →
     get_tx_messages ipfs_enabled now tx seen n = (Raise ValidationError, seen, n)).
Proof.
  intros Hp Hv Hparse Hty content.
  unfold get_tx_messages, _get_tx_messages_smart_contract_protocol.
  rewrite Hp, Hv, Hparse, Hty. simpl. fold content.
  split; intros Hvalid; rewrite Hvalid; simpl; [|reflexivity].
  eexists _, _. split; [reflexivity|]. repeat split.
Qed.

Lemma ChainSyncProtocol_value_inj p q :
  ChainSyncProtocol_value p = ChainSyncProtocol_value q → p = q.
Proof. by destruct p, q. Qed.

Lemma get_chaindata_envelope_inline messages T (st : S) :
  Z.of_nat (String.length (json_dumps (on_chain_chaindata messages))) ≤ T →
  get_chaindata_envelope messages T st = (on_chain_chaindata messages, st).
Proof.
  intros Hle. unfold get_chaindata_envelope.
  destruct (Z.ltb_spec T (Z.of_nat (String.length (json_dumps (on_chain_chaindata messages)))));
    [lia|done].
Qed.

Lemma get_chaindata_envelope_bulk messages T (st : S) :
  T < Z.of_nat (String.length (json_dumps (on_chain_chaindata messages))) →
  get_chaindata_envelope messages T st
  = (sync_envelope OFF_CHAIN_SYNC
       (JStr (add_json st (on_chain_chaindata messages)).1),
     (add_json st (on_chain_chaindata messages)).2).
Proof.
  intros Hlt. unfold get_chaindata_envelope.
  destruct (Z.ltb_spec T (Z.of_nat (String.length (json_dumps (on_chain_chaindata messages)))));
    [|lia].
  by destruct (add_json st (on_chain_chaindata messages)).
Qed.

(** C6. [get_chaindata] first builds the inline envelope
    {protocol: aleph-sync, version: 1, content: {messages: [...]}}. When the
    length of its serialization exceeds the threshold, the envelope is
    uploaded to the storage service and the result is the serialized
    off-chain envelope whose content is the hash the service returned;
    otherwise the result is the serialized inline envelope and the storage is
    not touched. The off-chain envelope is returned exactly when the
    threshold is exceeded. *)
Theorem get_chaindata_bulk_threshold messages T (st : S) :
  let inline_envelope :=
    JObj [ ("protocol", JStr "aleph-sync"); ("version", JNum 1);
           ("content", JObj [("messages", JList (map message_to_dict messages))]) ] in
  let size := Z.of_nat (String.length (json_dumps inline_envelope)) in
  let off_chain_envelope :=
    JObj [ ("protocol", JStr "aleph-offchain-sync"); ("version", JNum 1);
           ("content", JStr (add_json st inline_envelope).1) ] in
  (T < size →
   get_chaindata messages T st
   = (json_dumps off_chain_envelope, (add_json st inline_envelope).2))
  ∧ (size ≤ T → get_chaindata messages T st = (json_dumps inline_envelope, st))
  ∧ ((get_chaindata_envelope messages T st).1 = off_chain_envelope ↔ T < size).
Proof.
  intros inline_envelope size off_chain_envelope.
  change inline_envelope with (on_chain_chaindata messages) in *.
  split; [|split].
  - intros Hlt. unfold get_chaindata.
    by rewrite get_chaindata_envelope_bulk.
  - intros Hle. unfold get_chaindata.
    by rewrite get_chaindata_envelope_inline.
  - split.
    + intros Heq. destruct (Z.lt_ge_cases T size) as [|Hle]; [done|].
      rewrite get_chaindata_envelope_inline in Heq by done. discriminate.
    + intros Hlt. by rewrite get_chaindata_envelope_bulk.
Qed.

(** The inline envelope decodes to the dicts that were encoded. *)
Lemma on_chain_envelope_round_trip
    messages T (st : S) ipfs_enabled now tx seen (n : Node S P) :
  Z.of_nat (String.length (json_dumps (on_chain_chaindata messages))) ≤ T →
  carries_envelope tx (get_chaindata_envelope messages T st).1 →
  get_tx_messages ipfs_enabled now tx seen n
  = (Ok (JList (map message_to_dict messages)), seen, n).
Proof.
  intros Hle. rewrite get_chaindata_envelope_inline by done.
  intros (Hp & Hv & Hc). simpl in Hp, Hv, Hc.
  injection Hp as Hp. injection Hv as Hv. injection Hc as Hc.
  apply (ChainSyncProtocol_value_inj ON_CHAIN_SYNC) in Hp.
  unfold get_tx_messages, _get_tx_messages_on_chain_protocol.
  by rewrite <- Hp, <- Hv, <- Hc.
Qed.

(** C7, on the off-chain branch. When the threshold is exceeded,
    [get_chaindata] stores the whole inline envelope and returns the
    off-chain envelope. Decoding a ChainTx that carries it, with a storage
    service that returns what was stored, fetches the whole envelope and
    looks for [messages] at its top level: [get_tx_messages] raises
    [KeyError] instead of returning the encoded messages. *)
Theorem off_chain_envelope_decode_raises_KeyError
    messages T (st : S) ipfs_enabled now tx (n : Node S P) :
  T < Z.of_nat (String.length (json_dumps (on_chain_chaindata messages))) →
  carries_envelope tx (get_chaindata_envelope messages T st).1 →
  node_storage n = (get_chaindata_envelope messages T st).2 →
  returns_what_was_stored st (on_chain_chaindata messages) →
  (get_tx_messages ipfs_enabled now tx None n).1.1 = Raise (KeyError "messages").
Proof.
  intros Hlt. rewrite get_chaindata_envelope_bulk by done.
  intros (Hp & Hv & Hc) Hst (mc & Hget & Hval). simpl in Hp, Hv, Hc, Hst.
  injection Hp as Hp. injection Hv as Hv. injection Hc as Hc.
  apply (ChainSyncProtocol_value_inj OFF_CHAIN_SYNC) in Hp.
  unfold get_tx_messages, _get_tx_messages_off_chain_protocol.
  rewrite <- Hp, <- Hv, <- Hc.
  unfold fetch_off_chain_messages. simpl. rewrite Hst, Hget. simpl.
  by rewrite Hval.
Qed.

End ChainDataProperties.

Section ChainDataExamples.
#[local] Existing Instance py_codec.
#[local] Existing Instance map_storage.

Lemma off_chain_hash_seen_before_fetch_witness :
  let tx := off_chain_tx "QmMissing" in
  let n := empty_node ([] : list (json * string)) in
  ChainTxDb.content tx = JStr "QmMissing"
  ∧ ("QmMissing" ∉ (∅ : gset string))
  ∧ (fetch_off_chain_messages false 0 tx "QmMissing" n).1
    = Raise ContentCurrentlyUnavailable
  ∧ ∃ n1,
      _get_tx_messages_off_chain_protocol
        false 0 tx (Some ∅) n
      = (Raise ContentCurrentlyUnavailable, Some ({["QmMissing"]} ∪ ∅), n1)
      ∧ fetch_log n1 = (fetch_log n ++ ["QmMissing"])%list
      ∧ ∀ ipfs_enabled' now' tx' (n2 : Node (gmap string json) (list (json * string))),
          ChainTxDb.content tx' = JStr "QmMissing" →
          _get_tx_messages_off_chain_protocol
            ipfs_enabled' now' tx' (Some ({["QmMissing"]} ∪ ∅)) n2
          = (Ok (JList []), Some ({["QmMissing"]} ∪ ∅), n2).
Proof.
  intros tx n.
  split; [reflexivity|]. split; [apply not_elem_of_empty|]. split; [reflexivity|].
  apply (off_chain_hash_seen_before_fetch
           false 0 tx "QmMissing" ∅ n ContentCurrentlyUnavailable).
  - reflexivity.
  - apply not_elem_of_empty.
  - reflexivity.
Defined.

Lemma smart_contract_unexpected_msgtype_raises_ValueError_witness :
  let tx := smart_contract_tx TEZOS "STORE" in
  let n := empty_node ([] : list (json * string)) in
  get_tx_messages false 0 tx None n
  = (Raise (ValueError "Unexpected message type: True"), None, n).
Proof.
  intros tx n.
  apply (smart_contract_unexpected_msgtype_raises_ValueError
           false 0 tx None n
           (MessageEventPayload.mk 1699999999 "tz1sender" "STORE" sample_cid)).
  - reflexivity.
  - reflexivity.
  - reflexivity.
  - discriminate.
Defined.

(** A smart-contract tx whose payload parses and whose msgtype is STORE: the
    exception raised is not [InvalidContent]. *)
Lemma smart_contract_unexpected_msgtype_not_InvalidContent :
  let tx := smart_contract_tx TEZOS "STORE" in
  ChainTxDb.protocol tx = SMART_CONTRACT
  ∧ ChainTxDb.protocol_version tx = 1
  ∧ (∃ payload,
       MessageEventPayload_parse_obj (ChainTxDb.content tx) = Some payload
       ∧ MessageEventPayload.message_type payload ≠ "STORE_IPFS")
  ∧ (get_tx_messages false 0 tx None
       (empty_node ([] : list (json * string)))).1.1
    ≠ Raise InvalidContent.
Proof.
  intros tx. repeat split.
  - eexists. split; [reflexivity|discriminate].
  - discriminate.
Qed.

Lemma smart_contract_store_ipfs_message_witness :
  let tx := smart_contract_tx ETH "STORE_IPFS" in
  let bad_tx := smart_contract_tx_of TEZOS "STORE_IPFS" "QmContent" in
  let n := empty_node ([] : list (json * string)) in
  (∃ message item_content,
     get_tx_messages false 0 tx None n
     = (Ok (JList [JObj message]), None, n)
     ∧ item_content
       = store_content_dumps (StoreContent.mk "tz1sender" 1699999999 ipfs sample_cid)
     ∧ dict_get "item_content" message = Some (JStr item_content)
     ∧ dict_get "item_hash" message = Some (JStr (toy_digest item_content))
     ∧ dict_get "item_type" message = Some (JStr "inline")
     ∧ dict_get "signature" message = Some JNull
     ∧ dict_get "sender" message = Some (JStr "tz1sender")
     ∧ dict_get "time" message = Some (JNum 1700000000000000)
     ∧ dict_get "type" message = Some (JStr "STORE")
     ∧ dict_get "chain" message = Some (JStr "TEZOS"))
  ∧ get_tx_messages false 0 bad_tx None n = (Raise ValidationError, None, n).
Proof.
  intros tx bad_tx n. split.
  - exact (proj1 (smart_contract_store_ipfs_message
                    false 0 tx None n
                    (MessageEventPayload.mk 1699999999 "tz1sender" "STORE_IPFS" sample_cid)
                    eq_refl eq_refl eq_refl eq_refl) eq_refl).
  - exact (proj2 (smart_contract_store_ipfs_message
                    false 0 bad_tx None n
                    (MessageEventPayload.mk 1699999999 "tz1sender" "STORE_IPFS" "QmContent")
                    eq_refl eq_refl eq_refl eq_refl) eq_refl).
Defined.

(** Two smart-contract txs with msgtype STORE_IPFS. The first one is
    recorded for another chain than Tezos and carries a CID: the message
    returned does not carry the chain of the tx. The second one carries a
    msgcontent that is no hash: no message is returned. *)
Lemma smart_contract_message_chain_not_tx_chain :
  let tx := smart_contract_tx ETH "STORE_IPFS" in
  let bad_tx := smart_contract_tx_of TEZOS "STORE_IPFS" "QmContent" in
  let n := empty_node ([] : list (json * string)) in
  (∃ message,
     (get_tx_messages false 0 tx None n).1.1 = Ok (JList [JObj message])
     ∧ dict_get "chain" message ≠ Some (JStr (Chain_value (ChainTxDb.chain tx))))
  ∧ (∀ messages, (get_tx_messages false 0 bad_tx None n).1.1 ≠ Ok messages).
Proof.
  intros tx bad_tx n. split.
  - eexists. split; [reflexivity|]. discriminate.
  - intros messages. discriminate.
Qed.

Lemma get_chaindata_bulk_threshold_witness :
  get_chaindata two_messages 50 ∅
  = (py_json_dumps
       (JObj [ ("protocol", JStr "aleph-offchain-sync"); ("version", JNum 1);
               ("content", JStr bulk_hash) ]),
     <[bulk_hash := on_chain_chaindata two_messages]> ∅)
  ∧ get_chaindata two_messages 100000 ∅
    = (py_json_dumps (on_chain_chaindata two_messages), ∅).
Proof.
  split.
  - destruct (get_chaindata_bulk_threshold two_messages 50 ∅) as (Hbulk & _ & _).
    rewrite Hbulk by (vm_compute; reflexivity). reflexivity.
  - destruct (get_chaindata_bulk_threshold two_messages 100000 ∅) as (_ & Hinline & _).
    rewrite Hinline by (vm_compute; discriminate). reflexivity.
Defined.

Lemma off_chain_envelope_decode_raises_KeyError_witness :
  (get_chaindata_envelope two_messages 50 ∅).1
  = sync_envelope OFF_CHAIN_SYNC (JStr bulk_hash)
  ∧ carries_envelope bulk_tx (get_chaindata_envelope two_messages 50 ∅).1
  ∧ (get_tx_messages false 0 bulk_tx None bulk_node).1.1
    = Raise (KeyError "messages").
Proof.
  split; [by vm_compute|]. split; [by vm_compute|].
  apply (off_chain_envelope_decode_raises_KeyError two_messages 50 ∅ false 0
           bulk_tx bulk_node).
  - vm_compute. reflexivity.
  - by vm_compute.
  - reflexivity.
  - eexists. split; [by vm_compute|reflexivity].
Defined.

End ChainDataExamples.

(** ** The pending-tx processor *)

Section PendingTxProperties.
Context `{Codec} {S P : Type} `{StorageService S} `{MessagePublisher P}.

Lemma fetch_off_chain_messages_tables ipfs_enabled now tx h (n : Node S P) :
  let n' := (fetch_off_chain_messages ipfs_enabled now tx h n).2 in
  pending_txs n' = pending_txs n
  ∧ published n' = published n
  ∧ node_storage n' = node_storage n
  ∧ (pin_log n' = pin_log n → database n' = database n).
Proof.
  unfold fetch_off_chain_messages.
  destruct (get_json _ _ _) as [mc|e]; simpl.
  2:{ by destruct (is_AlephStorageException e), (is_Exception e). }
  destruct (_get_sync_messages _) as [ms|e]; simpl; [|done].
  destruct (py_len ms); simpl; [|done].
  destruct ipfs_enabled; simpl; [|done].
  assert (pin_log n ++ [h] = pin_log n → False)%list as Hne.
  { intros Heq. apply (f_equal length) in Heq. rewrite length_app in Heq.
    simpl in Heq. lia. }
  destruct (pin_hash _ _); simpl; repeat split; try done; intros Heq; by destruct Hne.
Qed.

Lemma get_tx_messages_tables ipfs_enabled now tx seen (n : Node S P) :
  let n' := (get_tx_messages ipfs_enabled now tx seen n).2 in
  pending_txs n' = pending_txs n
  ∧ published n' = published n
  ∧ node_storage n' = node_storage n
  ∧ (pin_log n' = pin_log n → database n' = database n).
Proof.
  unfold get_tx_messages.
  destruct (ChainTxDb.protocol tx), (ChainTxDb.protocol_version tx) as [|[]|];
    simpl; try done.
  unfold _get_tx_messages_off_chain_protocol.
  destruct (ChainTxDb.content tx) as [| | |h| |]; simpl; try done.
  destruct seen as [seen|].
  - case_decide; simpl; [done|].
    pose proof (fetch_off_chain_messages_tables ipfs_enabled now tx h n) as Hf.
    by destruct (fetch_off_chain_messages ipfs_enabled now tx h n).
  - pose proof (fetch_off_chain_messages_tables ipfs_enabled now tx h n) as Hf.
    by destruct (fetch_off_chain_messages ipfs_enabled now tx h n).
Qed.

Lemma py_len_iterable v z : py_len v = Ok z → iterable v.
Proof. by destruct v. Qed.

Lemma fetch_off_chain_messages_iterable ipfs_enabled now tx h (n : Node S P) ms :
  (fetch_off_chain_messages ipfs_enabled now tx h n).1 = Ok ms → iterable ms.
Proof.
  unfold fetch_off_chain_messages.
  destruct (get_json _ _ _) as [mc|e]; simpl.
  2:{ by destruct (is_AlephStorageException e), (is_Exception e). }
  destruct (_get_sync_messages _) as [ms'|e]; simpl; [|done].
  destruct (py_len ms') eqn:Hlen; simpl; [|done].
  apply py_len_iterable in Hlen.
  destruct ipfs_enabled; simpl.
  - destruct (pin_hash _ _); simpl; intros [= <-] || done; done.
  - by intros [= <-].
Qed.

Lemma get_tx_messages_iterable ipfs_enabled now tx seen (n : Node S P) ms :
  (get_tx_messages ipfs_enabled now tx seen n).1.1 = Ok ms → iterable ms.
Proof.
  unfold get_tx_messages.
  destruct (ChainTxDb.protocol tx), (ChainTxDb.protocol_version tx) as [|[]|];
    simpl; try done.
  - unfold _get_tx_messages_on_chain_protocol.
    destruct (_get_sync_messages _) as [v|]; simpl; [|done].
    destruct v; simpl; try done. by intros [= <-].
  - unfold _get_tx_messages_off_chain_protocol.
    destruct (ChainTxDb.content tx) as [| | |h| |]; simpl; try done.
    destruct seen as [seen|].
    + case_decide; simpl; [by intros [= <-]|].
      pose proof (fetch_off_chain_messages_iterable ipfs_enabled now tx h n) as Hf.
      destruct (fetch_off_chain_messages ipfs_enabled now tx h n). simpl in *. auto.
    + pose proof (fetch_off_chain_messages_iterable ipfs_enabled now tx h n) as Hf.
      destruct (fetch_off_chain_messages ipfs_enabled now tx h n). simpl in *. auto.
  - unfold _get_tx_messages_smart_contract_protocol.
    destruct (MessageEventPayload_parse_obj _); simpl; [|done].
    case_match; simpl; [done|]. case_match; simpl; [done|]. by intros [= <-].
Qed.

(** The only rows the off-chain fetch can have written when it raises are
    the two file records, and only when the exception is the one of the
    pin. *)
Lemma fetch_off_chain_messages_raise_database
    ipfs_enabled now tx h (n : Node S P) e :
  let r := fetch_off_chain_messages ipfs_enabled now tx h n in
  r.1 = Raise e →
  database r.2 = database n
  ∨ (ipfs_enabled = true
     ∧ ∃ mc,
         get_json (node_storage n) h 60 = Ok mc
         ∧ pin_hash (node_storage n) h = PinRaise e
         ∧ stored_files r.2
           = <[MessageContent.hash mc :=
                 StoredFileDb.mk (MessageContent.hash mc)
                   (Z.of_nat (String.length (MessageContent.raw_value mc)))]>
               (stored_files n)
         ∧ tx_file_pins r.2 = <[(h, ChainTxDb.hash tx) := now]> (tx_file_pins n)).
Proof.
  unfold fetch_off_chain_messages. simpl.
  destruct (get_json (node_storage n) h 60) as [mc|e0] eqn:Hget; simpl.
  2:{ destruct (is_AlephStorageException e0), (is_Exception e0); by left. }
  destruct (_get_sync_messages _) as [ms|e0]; simpl; [|by left].
  destruct (py_len ms); simpl; [|by left].
  destruct ipfs_enabled; simpl; [|by left].
  destruct (pin_hash (node_storage n) h) as [| |e0] eqn:Hpin; simpl; try done.
  intros [= ->]. right. split; [done|]. by exists mc.
Qed.

Lemma get_tx_messages_raise_database
    ipfs_enabled now tx seen (n : Node S P) e :
  let s := get_tx_messages ipfs_enabled now tx seen n in
  s.1.1 = Raise e →
  database s.2 = database n
  ∨ (ipfs_enabled = true
     ∧ ChainTxDb.protocol tx = OFF_CHAIN_SYNC
     ∧ ∃ file_hash mc,
         ChainTxDb.content tx = JStr file_hash
         ∧ get_json (node_storage n) file_hash 60 = Ok mc
         ∧ pin_hash (node_storage n) file_hash = PinRaise e
         ∧ stored_files s.2
           = <[MessageContent.hash mc :=
                 StoredFileDb.mk (MessageContent.hash mc)
                   (Z.of_nat (String.length (MessageContent.raw_value mc)))]>
               (stored_files n)
         ∧ tx_file_pins s.2
           = <[(file_hash, ChainTxDb.hash tx) := now]> (tx_file_pins n)).
Proof.
  unfold get_tx_messages.
  destruct (ChainTxDb.protocol tx) eqn:Hp, (ChainTxDb.protocol_version tx) as [|[]|];
    simpl; try by left.
  unfold _get_tx_messages_off_chain_protocol.
  destruct (ChainTxDb.content tx) as [| | |h| |] eqn:Hc; simpl; try by left.
  pose proof (fetch_off_chain_messages_raise_database ipfs_enabled now tx h n e) as Hf.
  assert ((fetch_off_chain_messages ipfs_enabled now tx h n).1 = Raise e →
          database (fetch_off_chain_messages ipfs_enabled now tx h n).2 = database n
          ∨ (ipfs_enabled = true
             ∧ OFF_CHAIN_SYNC = OFF_CHAIN_SYNC
             ∧ ∃ file_hash mc,
                 JStr h = JStr file_hash
                 ∧ get_json (node_storage n) file_hash 60 = Ok mc
                 ∧ pin_hash (node_storage n) file_hash = PinRaise e
                 ∧ stored_files (fetch_off_chain_messages ipfs_enabled now tx h n).2
                   = <[MessageContent.hash mc :=
                         StoredFileDb.mk (MessageContent.hash mc)
                           (Z.of_nat (String.length (MessageContent.raw_value mc)))]>
                       (stored_files n)
                 ∧ tx_file_pins (fetch_off_chain_messages ipfs_enabled now tx h n).2
                   = <[(file_hash, ChainTxDb.hash tx) := now]> (tx_file_pins n)))
    as Hf'.
  { intros Hr. destruct (Hf Hr) as [Hdb|(Hi & mc & Hrest)]; [by left|right].
    split; [done|]. split; [done|]. by exists h, mc. }
  destruct seen as [seen|].
  - case_decide; simpl; [done|].
    destruct (fetch_off_chain_messages ipfs_enabled now tx h n); simpl in *. exact Hf'.
  - destruct (fetch_off_chain_messages ipfs_enabled now tx h n); simpl in *. exact Hf'.
Qed.


End PendingTxProperties.

Section PendingTxExamples.
#[local] Existing Instance py_codec.
#[local] Existing Instance map_storage.
#[local] Existing Instance recording_publisher.



End PendingTxExamples.

(** ** The pending-message job *)

Section PendingMessageProperties.
Context {M : Type} `{MessageHandling M}.

(** C10. A pending document whose message dict is refused by [parse_message]
    with [InvalidMessageError] is dropped and nothing else happens:
    [handle_pending_message] returns the single operation that deletes the
    document from the pending-message collection, so no operation writes a
    rejection or a status, and [seen_ids] is returned as it was, [incoming]
    not being called. *)
Theorem handle_pending_message_drops_invalid
    (pending : json) (seen_ids : gmap seen_key Z) (pending_id message : json) :
  getitem pending "_id" = Ok pending_id →
  getitem pending "message" = Ok message →
  parse_message message = Raise InvalidMessageError →
  handle_pending_message pending seen_ids
  = (Ok [mkDbBulkOperation PendingMessage (DeleteOne (JObj [("_id", pending_id)]))],
     seen_ids).
Proof.
  intros Hid Hmsg Hparse. unfold handle_pending_message.
  rewrite Hid, Hmsg. simpl. by rewrite Hparse.
Qed.

End PendingMessageProperties.

Lemma handle_pending_message_drops_invalid_witness :
  handle_pending_message (H := simple_handling) invalid_pending_doc ∅
  = (Ok [mkDbBulkOperation PendingMessage (DeleteOne (JObj [("_id", JNum 7)]))], ∅).
Proof.
  apply (handle_pending_message_drops_invalid (H := simple_handling)
           invalid_pending_doc ∅ (JNum 7) (JObj [("sender", JStr "0xsender")]));
    reflexivity.
Defined.

(** *** The cleanup sweep *)

Lemma field_is_spec doc path s :
  field_is doc path s = true ↔ path_get path doc = Some (JStr s).
Proof.
  unfold field_is. destruct (path_get path doc) as [[]|]; try (split; by intros).
  rewrite String.eqb_eq. split; [by intros ->|by intros [= ->]].
Qed.

Lemma field_gt_spec doc path h :
  field_gt doc path h = true ↔ ∃ x, path_get path doc = Some (JNum x) ∧ h < x.
Proof.
  unfold field_gt. destruct (path_get path doc) as [[]|];
    try (split; [by intros|by intros (x & ? & ?)]).
  rewrite Z.ltb_lt. split; [by eexists|by intros (x & [= ->] & ?)].
Qed.

Lemma clean_filter_spec key height doc :
  clean_filter key height doc = true ↔
  ∃ x, path_get ["message"; "item_hash"] doc = Some (JStr key.1.1)
       ∧ path_get ["message"; "sender"] doc = Some (JStr key.1.2)
       ∧ path_get ["source"; "chain_name"] doc = Some (JStr key.2)
       ∧ path_get ["source"; "height"] doc = Some (JNum x)
       ∧ height < x.
Proof.
  unfold clean_filter. rewrite !andb_true_iff, !field_is_spec, field_gt_spec.
  split.
  - intros [[[Hh Hs] Hc] (x & Hx & Hlt)]. by exists x.
  - intros (x & Hh & Hs & Hc & Hx & Hlt). repeat split; try done. by exists x.
Qed.

Lemma elem_of_delete_many action docs d :
  d ∈ delete_many action docs ↔ d ∈ docs ∧ clean_filter action.1 action.2 d = false.
Proof.
  unfold delete_many. rewrite !list_elem_of_In, filter_In, negb_true_iff. done.
Qed.

Lemma elem_of_fold_delete_many actions docs d :
  d ∈ fold_left (fun ds action => delete_many action ds) actions docs ↔
  d ∈ docs ∧ ∀ action, action ∈ actions → clean_filter action.1 action.2 d = false.
Proof.
  revert docs. induction actions as [|a actions IH]; intros docs; simpl.
  - split; [|by intros [Hd _]]. intros Hd. split; [done|]. intros a Ha. by inversion Ha.
  - rewrite IH, elem_of_delete_many. split.
    + intros [[Hd Ha] Hrest]. split; [done|]. intros a' Ha'.
      apply elem_of_cons in Ha' as [->|Ha']; auto.
    + intros [Hd Hall]. repeat split; [done| |].
      * apply Hall. left.
      * intros a' Ha'. apply Hall. by right.
Qed.

(** The documents left by the sweep on a collection above the high-water
    mark. *)
Lemma elem_of_clean_pending_messages seen_ids docs d :
  100000 < Z.of_nat (length docs) →
  d ∈ (clean_pending_messages seen_ids docs).2 ↔
  d ∈ docs ∧ ∀ key h, seen_ids !! key = Some h → clean_filter key h d = false.
Proof.
  intros Hbig. unfold clean_pending_messages, bulk_write, clean_actions.
  apply Z.ltb_lt in Hbig. rewrite Hbig.
  destruct (map_to_list seen_ids) as [|a actions] eqn:Hl.
  - apply map_to_list_empty_iff in Hl. subst seen_ids. simpl.
    split; [|by intros [Hd _]]. intros Hd. split; [done|]. intros key h Hk.
    by rewrite lookup_empty in Hk.
  - simpl fst. simpl snd.
    change (fold_left (fun ds action => delete_many action ds) actions
                      (delete_many a docs))
      with (fold_left (fun ds action => delete_many action ds) (a :: actions) docs).
    rewrite elem_of_fold_delete_many, <- Hl. split.
    + intros [Hd Hall]. split; [done|]. intros key h Hk.
      apply (Hall (key, h)). by apply elem_of_map_to_list.
    + intros [Hd Hall]. split; [done|]. intros [key h] Hk.
      apply Hall. by apply elem_of_map_to_list.
Qed.

Lemma deleted_by_some_action actions docs d :
  d ∈ docs →
  d ∈ fold_left (fun ds action => delete_many action ds) actions docs
  ∨ ∃ action, action ∈ actions ∧ clean_filter action.1 action.2 d = true.
Proof.
  revert docs. induction actions as [|a actions IH]; intros docs Hd; simpl; [by left|].
  destruct (clean_filter a.1 a.2 d) eqn:Ha.
  - right. exists a. split; [left|done].
  - destruct (IH (delete_many a docs)) as [Hin|(a' & Ha' & Hf)].
    + by apply elem_of_delete_many.
    + by left.
    + right. exists a'. split; [by right|done].
Qed.

(** C1, as the code has it. In a round in which the pending-message
    collection holds more than 100000 documents, the sweep deletes a document
    exactly when some key recorded in [seen_ids] carries its item_hash,
    sender and chain_name and the source height of the document is strictly
    greater than the height recorded for that key. Documents at or below the
    recorded height are kept. *)
Theorem cleanup_deletes_rows_above_seen_height
    (seen_ids : gmap seen_key Z) (docs : list json) (d : json) :
  100000 < Z.of_nat (length docs) →
  d ∈ docs →
  (d ∉ (clean_pending_messages seen_ids docs).2 ↔
   ∃ key h x,
     seen_ids !! key = Some h
     ∧ path_get ["message"; "item_hash"] d = Some (JStr key.1.1)
     ∧ path_get ["message"; "sender"] d = Some (JStr key.1.2)
     ∧ path_get ["source"; "chain_name"] d = Some (JStr key.2)
     ∧ path_get ["source"; "height"] d = Some (JNum x)
     ∧ h < x).
Proof.
  intros Hbig Hd. rewrite (elem_of_clean_pending_messages _ _ _ Hbig). split.
  - intros Hnot.
    destruct (deleted_by_some_action (map_to_list seen_ids) docs d Hd)
      as [Hin|([key h] & Ha & Hf)].
    + destruct Hnot. split; [done|]. intros key h Hk.
      apply elem_of_fold_delete_many in Hin as [_ Hall].
      apply (Hall (key, h)). by apply elem_of_map_to_list.
    + apply elem_of_map_to_list in Ha. apply clean_filter_spec in Hf as (x & Hf).
      by exists key, h, x.
  - intros (key & h & x & Hk & Hf) [_ Hall].
    specialize (Hall key h Hk).
    assert (clean_filter key h d = true) as Ht by (apply clean_filter_spec; by exists x).
    congruence.
Qed.

Lemma length_big_collection : 100000 < Z.of_nat (length big_collection).
Proof.
  unfold big_collection. rewrite !length_cons, length_replicate. lia.
Defined.

Lemma cleanup_deletes_rows_above_seen_height_witness :
  100000 < Z.of_nat (length big_collection)
  ∧ (doc_at_10 ∈ big_collection)
  ∧ (doc_at_10 ∉ (clean_pending_messages seen_at_5 big_collection).2).
Proof.
  split; [exact length_big_collection|]. split; [left|].
  apply (cleanup_deletes_rows_above_seen_height seen_at_5 big_collection doc_at_10
           length_big_collection).
  - left.
  - exists ("item-hash-1", "0xsender", "ETH"), 5, 10.
    split; [reflexivity|]. repeat split.
Defined.

(** The sweep on a collection in which one message is pending at heights 10
    and 5, the height recorded in [seen_ids] being 5: the document at the
    highest height is the one deleted, the document at the lower height is
    kept. *)
Lemma cleanup_deletes_highest_height :
  100000 < Z.of_nat (length big_collection)
  ∧ seen_at_5 !! ("item-hash-1", "0xsender", "ETH") = Some 5
  ∧ path_get ["source"; "height"] doc_at_10 = Some (JNum 10)
  ∧ path_get ["source"; "height"] doc_at_5 = Some (JNum 5)
  ∧ (doc_at_10 ∈ big_collection)
  ∧ (doc_at_10 ∉ (clean_pending_messages seen_at_5 big_collection).2)
  ∧ (doc_at_5 ∈ (clean_pending_messages seen_at_5 big_collection).2).
Proof.
  split; [exact length_big_collection|]. split; [reflexivity|].
  split; [reflexivity|]. split; [reflexivity|]. split; [left|]. split.
  - rewrite (elem_of_clean_pending_messages _ _ _ length_big_collection).
    intros [_ Hall].
    specialize (Hall ("item-hash-1", "0xsender", "ETH") 5 eq_refl). discriminate.
  - rewrite (elem_of_clean_pending_messages _ _ _ length_big_collection).
    split; [right; left|]. intros key h Hk.
    unfold seen_at_5 in Hk. apply lookup_singleton_Some in Hk as [<- <-].
    reflexivity.
Qed.

(** ** Admission of pending messages *)

Lemma find_none_filter {A} (f : A → bool) (l : list A) :
  List.find f l = None → List.filter f l = [].
Proof.
  induction l as [|x l IH]; simpl; [done|].
  destruct (f x); [done|auto].
Qed.

Lemma find_some_filter {A} (f : A → bool) (l : list A) x :
  List.find f l = Some x → (1 ≤ length (List.filter f l))%nat.
Proof.
  induction l as [|y l IH]; simpl; [done|].
  destruct (f y); simpl; [lia|auto].
Qed.

Lemma find_app_last {A} (f : A → bool) (l : list A) x :
  List.find f l = None → f x = true → List.find f (l ++ [x]) = Some x.
Proof.
  induction l as [|y l IH]; simpl; intros Hnone Hx; [by rewrite Hx|].
  destruct (f y); [done|auto].
Qed.

Lemma find_pointwise {A} (f g : A → bool) (l : list A) :
  (∀ x, f x = g x) → List.find f l = List.find g l.
Proof.
  intros Hfg. induction l as [|x l IH]; simpl; [done|]. by rewrite Hfg, IH.
Qed.

Lemma filter_pointwise {A} (f g : A → bool) (l : list A) :
  (∀ x, f x = g x) → List.filter f l = List.filter g l.
Proof.
  intros Hfg. induction l as [|x l IH]; simpl; [done|]. by rewrite Hfg, IH.
Qed.

Section PublisherProperties.
Context `{Processing}.

Lemma has_key_chain_txs db db' k pm :
  chain_txs db' = chain_txs db → has_key db' k pm = has_key db k pm.
Proof.
  intros Heq. unfold has_key, pending_key, make_key, source_of. by rewrite Heq.
Qed.

(** C5. For a well-formed message dict [M], in a store that holds at most
    one pending message with the logical key of [M], two calls of
    [add_pending_message] with [M] (the same origin and tx hash, any
    reception times) leave exactly one pending message with that key, and
    both return the same row, hence the same [reception_time]: the one
    returned by the first call. *)
Theorem add_pending_message_idempotent
    (M : json) (c : Candidate.t) (t1 t2 : datetime) (origin : MessageOrigin)
    (tx_hash : option string) (check : bool) (now1 now2 : datetime) (db : Store) :
  parse_candidate M = Some c →
  (count_key db (make_key db (Candidate.item_hash c) (Candidate.sender c) tx_hash) ≤ 1)%nat →
  ∃ p1 p2 db1 db2,
    add_pending_message M t1 origin tx_hash check now1 db = (Some p1, db1)
    ∧ add_pending_message M t2 origin tx_hash check now2 db1 = (Some p2, db2)
    ∧ PendingMessageDb.reception_time p2 = PendingMessageDb.reception_time p1
    ∧ p2 = p1
    ∧ count_key db2 (make_key db (Candidate.item_hash c) (Candidate.sender c) tx_hash)
      = 1%nat.
Proof.
  intros Hparse Hcount.
  set (key := make_key db (Candidate.item_hash c) (Candidate.sender c) tx_hash) in *.
  unfold add_pending_message at 1. rewrite Hparse. fold key.
  destruct (List.find (has_key db key) (pending_messages db)) as [existing|] eqn:Hfind.
  - (* a row with this key exists: both calls return it *)
    eexists existing, existing, _, _. split; [reflexivity|].
    unfold add_pending_message. rewrite Hparse.
    assert (∀ db', chain_txs db' = chain_txs db →
                   pending_messages db' = pending_messages db →
                   List.find (has_key db' (make_key db' (Candidate.item_hash c)
                                                   (Candidate.sender c) tx_hash))
                             (pending_messages db') = Some existing) as Hfind'.
    { intros db' Hc Hp. rewrite Hp.
      replace (make_key db' _ _ tx_hash) with key
        by (unfold key, make_key, source_of; by rewrite Hc).
      rewrite (find_pointwise _ (has_key db key))
        by (intros pm; by apply has_key_chain_txs).
      exact Hfind. }
    rewrite Hfind' by (by destruct tx_hash).
    split; [reflexivity|]. split; [done|]. split; [done|].
    apply find_some_filter in Hfind.
    unfold count_key in *.
    rewrite (filter_pointwise _ (has_key db key))
      by (intros pm; apply has_key_chain_txs; by destruct tx_hash).
    destruct tx_hash; simpl; lia.
  - (* no row yet: the first call inserts one, the second finds it *)
    set (row := PendingMessageDb.mk
                  (fresh_id db) (Candidate.item_hash c) (Candidate.sender c)
                  (Candidate.chain c) (Candidate.type c) (Candidate.signature c)
                  (Candidate.item_type c) (Candidate.item_content c)
                  (Candidate.time c) (Candidate.channel c) t1 0 now1
                  (bool_decide (Candidate.item_type c = inline))
                  check origin tx_hash).
    eexists row, row, _, _. split; [reflexivity|].
    assert (has_key db key row = true) as Hrow.
    { unfold has_key, pending_key. simpl. by apply bool_decide_eq_true. }
    unfold add_pending_message. rewrite Hparse.
    assert (∀ db', chain_txs db' = chain_txs db →
                   pending_messages db' = (pending_messages db ++ [row])%list →
                   List.find (has_key db' (make_key db' (Candidate.item_hash c)
                                                   (Candidate.sender c) tx_hash))
                             (pending_messages db') = Some row
                   ∧ count_key db' key = 1%nat) as Hfind'.
    { intros db' Hc Hp. unfold count_key. rewrite Hp.
      replace (make_key db' _ _ tx_hash) with key
        by (unfold key, make_key, source_of; by rewrite Hc).
      rewrite (find_pointwise _ (has_key db key))
        by (intros pm; by apply has_key_chain_txs).
      rewrite (filter_pointwise _ (has_key db key))
        by (intros pm; by apply has_key_chain_txs).
      split; [by apply find_app_last|].
      rewrite List.filter_app, (find_none_filter _ _ Hfind). simpl. by rewrite Hrow. }
    match goal with
    | |- context [List.find _ (pending_messages ?d)] =>
        destruct (Hfind' d) as [Hf _]; [by destruct tx_hash|by destruct tx_hash|]
    end.
    rewrite Hf. split; [reflexivity|]. split; [done|]. split; [done|].
    match goal with
    | |- count_key ?d _ = _ =>
        destruct (Hfind' d) as [_ Hc]; [by destruct tx_hash|by destruct tx_hash|]
    end.
    exact Hc.
Qed.

End PublisherProperties.

Section PublisherExamples.
#[local] Existing Instance toy_processing.

Lemma add_pending_message_idempotent_witness :
  let key :=
    ("4c33dd1ebf61bbb4342d8258b591fcd52cca73fd7c425542f78311d8f45ba274",
     "0x696879aE4F6d8DaDD5b8F1cbb1e663B89b08f106", None, None) in
  ∃ p1 p2 db1 db2,
    add_pending_message fixture_message_dict 100 "p2p" None true 100 empty_store
    = (Some p1, db1)
    ∧ add_pending_message fixture_message_dict 200 "p2p" None true 200 db1
      = (Some p2, db2)
    ∧ PendingMessageDb.reception_time p2 = PendingMessageDb.reception_time p1
    ∧ p2 = p1
    ∧ count_key db2 key = 1%nat.
Proof.
  intros key.
  apply (add_pending_message_idempotent
           fixture_message_dict
           (Candidate.mk
              "4c33dd1ebf61bbb4342d8258b591fcd52cca73fd7c425542f78311d8f45ba274"
              "0x696879aE4F6d8DaDD5b8F1cbb1e663B89b08f106"
              ETH post (Some "0xsignature") storage None 1652803407 (Some "TEST"))
           100 200 "p2p" None true 100 200 empty_store).
  - reflexivity.
  - vm_compute. lia.
Defined.

End PublisherExamples.

(** ** The pipeline on executable messages *)

Section PipelineProperties.
Context `{Processing}.

Lemma all_missing db content :
  (∀ v, v ∈ get_volume_refs content → resolve_volume db v = None) →
  missing_volumes db content = get_volume_refs content.
Proof.
  intros Hall. unfold missing_volumes.
  induction (get_volume_refs content) as [|v l IH]; simpl; [done|].
  rewrite bool_decide_eq_true_2 by (apply Hall; left).
  f_equal. apply IH. intros v' Hv'. apply Hall. by right.
Qed.

Lemma not_elem_of_delete_pending pm db :
  pm ∉ pending_messages (delete_pending pm db).
Proof.
  unfold delete_pending. simpl. rewrite list_elem_of_In, filter_In.
  intros [_ Hne]. by rewrite Z.eqb_refl in Hne.
Qed.

(** C8. Take a pending program or instance message that reaches the handler
    (its content is available, its signature is accepted when checked, and
    its content parses as executable content) and whose declared volume refs,
    of which there is at least one, resolve to no [StoredFile]. Processing
    it creates no VM row and no version pointer, deletes the pending message,
    sets the status of the message to rejected, and records a rejection whose
    error code is [VM_VOLUME_NOT_FOUND], whose details hold under [errors]
    the refs of the missing volumes, which are all the declared refs, and
    whose traceback is empty. *)
Theorem missing_volumes_reject
    (db : Store) (pm : PendingMessageDb.t) (item_content : string)
    (content : ExecutableContent) (now : datetime) :
  List.find (fun r => PendingMessageDb.id r =? PendingMessageDb.id pm)
            (pending_messages db) = Some pm →
  resolve_content pm = Resolved item_content →
  (PendingMessageDb.check_message pm = true →
   verify_signature pm item_content = true) →
  parse_content (PendingMessageDb.type pm) item_content = Some (Executable content) →
  get_volume_refs content ≠ [] →
  (∀ v, v ∈ get_volume_refs content → resolve_volume db v = None) →
  let db' := process_pending_message (PendingMessageDb.id pm) now db in
  vms db' = vms db
  ∧ vm_versions db' = vm_versions db
  ∧ (pm ∉ pending_messages db')
  ∧ (∃ t, message_status db' !! PendingMessageDb.item_hash pm = Some (REJECTED, t))
  ∧ ∃ r errors,
      rejected_messages db' !! PendingMessageDb.item_hash pm = Some r
      ∧ RejectedMessageDb.error_code r = VM_VOLUME_NOT_FOUND
      ∧ RejectedMessageDb.details r = Some (JObj [("errors", JList (map JStr errors))])
      ∧ errors = map Volume.ref (missing_volumes db content)
      ∧ (list_to_set errors : gset string)
        = list_to_set (map Volume.ref (get_volume_refs content))
      ∧ RejectedMessageDb.traceback r = None.
Proof.
  intros Hfind Hcontent Hsig Hparse Hrefs Hall db'.
  assert (db' = reject pm VM_VOLUME_NOT_FOUND
                  (Some (JObj [("errors",
                                JList (map (fun v => JStr (Volume.ref v))
                                           (get_volume_refs content)))])) db) as ->.
  { unfold db', process_pending_message. rewrite Hfind, Hcontent.
    destruct (PendingMessageDb.check_message pm) eqn:Hcheck; simpl.
    - rewrite Hsig by done. simpl. rewrite Hparse.
      unfold vm_handler. rewrite (all_missing _ _ Hall).
      by destruct (get_volume_refs content).
    - rewrite Hparse. unfold vm_handler. rewrite (all_missing _ _ Hall).
      by destruct (get_volume_refs content). }
  split; [done|]. split; [done|]. split; [apply not_elem_of_delete_pending|].
  split.
  - unfold reject, delete_pending, transition. simpl.
    rewrite lookup_insert_eq. by eexists.
  - eexists _, (map Volume.ref (get_volume_refs content)).
    split; [unfold reject; simpl; apply lookup_insert_eq|].
    simpl. split; [done|]. split; [by rewrite map_map|].
    split; [by rewrite (all_missing _ _ Hall)|]. done.
Qed.

End PipelineProperties.

Section PipelineExamples.
#[local] Existing Instance toy_processing.

Lemma missing_volumes_reject_witness :
  let pm := fixture_instance_message in
  let db' := process_pending_message 1 0 instance_store in
  vms db' = ∅
  ∧ vm_versions db' = ∅
  ∧ (pm ∉ pending_messages db')
  ∧ (∃ t, message_status db' !! PendingMessageDb.item_hash pm = Some (REJECTED, t))
  ∧ ∃ r errors,
      rejected_messages db' !! PendingMessageDb.item_hash pm = Some r
      ∧ RejectedMessageDb.error_code r = VM_VOLUME_NOT_FOUND
      ∧ RejectedMessageDb.details r = Some (JObj [("errors", JList (map JStr errors))])
      ∧ errors = map Volume.ref (missing_volumes instance_store fixture_instance_content)
      ∧ (list_to_set errors : gset string)
        = list_to_set (map Volume.ref (get_volume_refs fixture_instance_content))
      ∧ RejectedMessageDb.traceback r = None.
Proof.
  intros pm db'.
  apply (missing_volumes_reject instance_store pm "instance-content"
           fixture_instance_content 0).
  - reflexivity.
  - reflexivity.
  - discriminate.
  - reflexivity.
  - discriminate.
  - intros v _. unfold resolve_volume. simpl.
    destruct (Volume.use_latest v); by rewrite lookup_empty.
Defined.

End PipelineExamples.

(** * Further properties of the sources *)

(** ** The chain data service *)

Lemma dict_get_is_Some k (d : list (string * json)) :
  is_Some (dict_get k d) ↔ k ∈ map fst d.
Proof.
  induction d as [|[k' v] d IH]; simpl.
  - split; [by intros [? ?]|by intros ?%elem_of_nil].
  - destruct (String.eqb_spec k k') as [->|Hne].
    + split; [intros _; left|by eexists].
    + rewrite IH, elem_of_cons. split; [by right|by intros [?|?]].
Qed.

(** X1. Every dict [get_chaindata] puts in an envelope has exactly the
    authorized fields as keys: the [content] and [size] columns of the
    message are dropped, and [time] is the epoch value of the message's
    time. *)
Theorem message_to_dict_authorized_fields (m : MessageDb.t) :
  ∃ d,
    message_to_dict m = JObj d
    ∧ (∀ k, is_Some (dict_get k d) ↔ k ∈ INCOMING_MESSAGE_AUTHORIZED_FIELDS)
    ∧ dict_get "time" d = Some (JNum (timestamp (MessageDb.time m)))
    ∧ dict_get "content" d = None
    ∧ dict_get "size" d = None.
Proof.
  eexists. split; [reflexivity|]. split; [|by repeat split].
  intros k. rewrite dict_get_is_Some. simpl.
  unfold INCOMING_MESSAGE_AUTHORIZED_FIELDS. rewrite !elem_of_cons, !elem_of_nil.
  tauto.
Qed.

Section MoreChainDataProperties.
Context `{Codec} {S P : Type} `{StorageService S}.

(** X2. The inline envelope round-trips: when the serialization of the
    envelope fits the threshold, [get_chaindata] returns the inline envelope
    and leaves the storage alone, and [get_tx_messages] on a ChainTx that
    carries that envelope returns the encoded dicts, in order, without
    changing [seen_ids] or the node. *)
Theorem inline_envelope_round_trip
    messages T (st : S) ipfs_enabled now tx seen (n : Node S P) :
  Z.of_nat (String.length (json_dumps (on_chain_chaindata messages))) ≤ T →
  carries_envelope tx (get_chaindata_envelope messages T st).1 →
  (get_chaindata_envelope messages T st).2 = st
  ∧ get_tx_messages ipfs_enabled now tx seen n
    = (Ok (JList (map message_to_dict messages)), seen, n).
Proof.
  intros Hle. rewrite get_chaindata_envelope_inline by done.
  intros (Hp & Hv & Hc). simpl in Hp, Hv, Hc. split; [done|].
  injection Hp as Hp. injection Hv as Hv. injection Hc as Hc.
  apply (ChainSyncProtocol_value_inj ON_CHAIN_SYNC) in Hp.
  unfold get_tx_messages, _get_tx_messages_on_chain_protocol, _get_sync_messages.
  rewrite <- Hp, <- Hv, <- Hc. reflexivity.
Qed.

(** X3. The threshold of [get_chaindata] is monotone: when the envelope is
    returned inline for a threshold, it is returned inline, and the storage
    left alone, for every greater one; a negative threshold always sends the
    envelope off chain. *)
Theorem get_chaindata_threshold_monotone messages T T' (st : S) :
  T ≤ T' →
  ((get_chaindata_envelope messages T st).1 = on_chain_chaindata messages →
   get_chaindata_envelope messages T' st = (on_chain_chaindata messages, st))
  ∧ (T' < 0 →
     (get_chaindata_envelope messages T st).1
     = sync_envelope OFF_CHAIN_SYNC
         (JStr (add_json st (on_chain_chaindata messages)).1)).
Proof.
  intros Hle. split.
  - intros Hinline. apply get_chaindata_envelope_inline.
    destruct (Z.lt_ge_cases T
                (Z.of_nat (String.length (json_dumps (on_chain_chaindata messages)))))
      as [Hlt|Hge]; [|lia].
    rewrite get_chaindata_envelope_bulk in Hinline by done. discriminate.
  - intros Hneg. rewrite get_chaindata_envelope_bulk; [done|lia].
Qed.

(** X4. Only the off-chain protocol in version 1 reads the storage, writes
    to the database or changes [seen_ids]: for every other tx
    [get_tx_messages] leaves the node and [seen_ids] as they are, and a
    version other than 1 is refused with [InvalidContent]. *)
Theorem get_tx_messages_on_tx_alone
    ipfs_enabled now tx seen (n : Node S P) :
  (ChainTxDb.protocol tx ≠ OFF_CHAIN_SYNC ∨ ChainTxDb.protocol_version tx ≠ 1) →
  (get_tx_messages ipfs_enabled now tx seen n).1.2 = seen
  ∧ (get_tx_messages ipfs_enabled now tx seen n).2 = n
  ∧ (ChainTxDb.protocol_version tx ≠ 1 →
     (get_tx_messages ipfs_enabled now tx seen n).1.1 = Raise InvalidContent).
Proof.
  intros Hother. unfold get_tx_messages.
  destruct (ChainTxDb.protocol tx), (ChainTxDb.protocol_version tx) as [|[]|];
    simpl; try done; by destruct Hother.
Qed.

(** X5. [seen_ids] only grows, and by nothing but the content hash of the
    tx: without a set none is created, and a set that is passed comes back
    with the same elements and at most that hash added. *)
Theorem get_tx_messages_seen_ids_grow
    ipfs_enabled now tx seen (n : Node S P) :
  match seen, (get_tx_messages ipfs_enabled now tx seen n).1.2 with
  | None, seen' => seen' = None
  | Some s, Some s' =>
      s ⊆ s' ∧ ∀ x, x ∈ s' → x ∈ s ∨ ChainTxDb.content tx = JStr x
  | Some _, None => False
  end.
Proof.
  assert (∀ s : gset string,
            s ⊆ s ∧ ∀ x, x ∈ s → x ∈ s ∨ ChainTxDb.content tx = JStr x) as Hsame
    by (intros s; split; [done|by left]).
  unfold get_tx_messages.
  destruct (ChainTxDb.protocol tx), (ChainTxDb.protocol_version tx) as [|[]|];
    simpl; try (by destruct seen).
  unfold _get_tx_messages_off_chain_protocol.
  destruct (ChainTxDb.content tx) as [| | |h| |]; simpl; try (by destruct seen).
  destruct seen as [s|].
  - case_decide; simpl; [done|].
    destruct (fetch_off_chain_messages ipfs_enabled now tx h n). simpl.
    split; [apply union_subseteq_r|].
    intros x [->%elem_of_singleton|Hx]%elem_of_union; auto.
  - by destruct (fetch_off_chain_messages ipfs_enabled now tx h n).
Qed.

End MoreChainDataProperties.

Section OffChainProperties.
Context `{Codec} {S P : Type} `{StorageService S}.

Lemma get_tx_messages_off_chain_unseen
    ipfs_enabled now tx h seen (n : Node S P) :
  ChainTxDb.protocol tx = OFF_CHAIN_SYNC →
  ChainTxDb.protocol_version tx = 1 →
  ChainTxDb.content tx = JStr h →
  (∀ s, seen = Some s → h ∉ s) →
  get_tx_messages ipfs_enabled now tx seen n
  = ((fetch_off_chain_messages ipfs_enabled now tx h n).1,
     (fun s : gset string => {[h]} ∪ s) <$> seen,
     (fetch_off_chain_messages ipfs_enabled now tx h n).2).
Proof.
  intros Hp Hv Hc Hunseen.
  unfold get_tx_messages, _get_tx_messages_off_chain_protocol.
  rewrite Hp, Hv, Hc. destruct seen as [s|]; simpl.
  - rewrite decide_False by (by apply Hunseen).
    by destruct (fetch_off_chain_messages ipfs_enabled now tx h n).
  - by destruct (fetch_off_chain_messages ipfs_enabled now tx h n).
Qed.

(** X6. With IPFS disabled in the configuration, [get_tx_messages] never
    writes to the database and never asks for a pin, whatever the tx. *)
Theorem get_tx_messages_without_ipfs now tx seen (n : Node S P) :
  database (get_tx_messages false now tx seen n).2 = database n
  ∧ pin_log (get_tx_messages false now tx seen n).2 = pin_log n.
Proof.
  assert (pin_log (get_tx_messages false now tx seen n).2 = pin_log n) as Hpin.
  { unfold get_tx_messages.
    destruct (ChainTxDb.protocol tx), (ChainTxDb.protocol_version tx) as [|[]|];
      simpl; try done.
    unfold _get_tx_messages_off_chain_protocol.
    destruct (ChainTxDb.content tx) as [| | |h| |]; simpl; try done.
    assert (pin_log (fetch_off_chain_messages false now tx h n).2 = pin_log n) as Hf.
    { unfold fetch_off_chain_messages.
      destruct (get_json _ _ _) as [mc|e]; simpl.
      2:{ by destruct (is_AlephStorageException e), (is_Exception e). }
      destruct (_get_sync_messages _) as [ms|e]; simpl; [|done].
      by destruct (py_len ms). }
    destruct seen as [s|]; [case_decide; simpl; [done|]|];
      by destruct (fetch_off_chain_messages false now tx h n). }
  split; [|done].
  by apply (get_tx_messages_tables false now tx seen n).
Qed.

(** X7. When the storage service fails, with an exception [e], to deliver
    the file of an off-chain tx not seen before, [get_tx_messages] raises
    [e] itself when it is an [AlephStorageException],
    [ContentCurrentlyUnavailable] when it is any other [Exception], and [e]
    itself again when it is no [Exception] (a cancellation, a keyboard
    interrupt, an exit), which [except Exception] lets through. So a failure
    with an [Exception] always comes out as an [AlephStorageException]. In
    every case nothing is written to the database and no pin is asked
    for. *)
Theorem off_chain_fetch_failure
    ipfs_enabled now tx h seen (n : Node S P) e :
  ChainTxDb.protocol tx = OFF_CHAIN_SYNC →
  ChainTxDb.protocol_version tx = 1 →
  ChainTxDb.content tx = JStr h →
  (∀ s, seen = Some s → h ∉ s) →
  get_json (node_storage n) h 60 = Raise e →
  let r := get_tx_messages ipfs_enabled now tx seen n in
  r.1.1 = Raise (if is_AlephStorageException e then e
                 else if is_Exception e then ContentCurrentlyUnavailable
                 else e)
  ∧ (is_Exception e = true →
     ∃ e', r.1.1 = Raise e' ∧ is_AlephStorageException e' = true)
  ∧ (is_Exception e = false → r.1.1 = Raise e)
  ∧ database r.2 = database n
  ∧ pin_log r.2 = pin_log n.
Proof.
  intros Hp Hv Hc Hunseen Hget r. unfold r.
  rewrite (get_tx_messages_off_chain_unseen _ _ _ h) by done. simpl.
  unfold fetch_off_chain_messages. simpl. rewrite Hget.
  destruct (is_AlephStorageException e) eqn:He, (is_Exception e) eqn:Hex; simpl;
    repeat split; try done; try (intros _; eexists; split; done).
Qed.

(** X8. When IPFS is enabled and the file of an off-chain tx not seen before
    is fetched and holds its messages, [get_tx_messages] records the file
    under the hash the service reports, with the length of its raw content
    as size, records the pin of the file by the tx, and asks once for the
    pin; a pin that completes or times out leaves the messages returned. *)
Theorem off_chain_success_records_file
    now tx h seen (n : Node S P) mc messages size :
  ChainTxDb.protocol tx = OFF_CHAIN_SYNC →
  ChainTxDb.protocol_version tx = 1 →
  ChainTxDb.content tx = JStr h →
  (∀ s, seen = Some s → h ∉ s) →
  get_json (node_storage n) h 60 = Ok mc →
  getitem (MessageContent.value mc) "messages" = Ok messages →
  py_len messages = Ok size →
  (∀ e, pin_hash (node_storage n) h ≠ PinRaise e) →
  let r := get_tx_messages true now tx seen n in
  r.1.1 = Ok messages
  ∧ stored_files r.2 !! MessageContent.hash mc
    = Some (StoredFileDb.mk (MessageContent.hash mc)
              (Z.of_nat (String.length (MessageContent.raw_value mc))))
  ∧ tx_file_pins r.2 !! (h, ChainTxDb.hash tx) = Some now
  ∧ pin_log r.2 = (pin_log n ++ [h])%list
  ∧ fetch_log r.2 = (fetch_log n ++ [h])%list
  ∧ pending_txs r.2 = pending_txs n.
Proof.
  intros Hp Hv Hc Hunseen Hget Hmsgs Hlen Hpin r. unfold r.
  rewrite (get_tx_messages_off_chain_unseen _ _ _ h) by done. simpl.
  unfold fetch_off_chain_messages, _get_sync_messages. simpl.
  rewrite Hget, Hmsgs, Hlen.
  destruct (pin_hash (node_storage n) h) as [| |e] eqn:Hp'; simpl.
  - repeat split; try done; apply lookup_insert_eq.
  - repeat split; try done; apply lookup_insert_eq.
  - by destruct (Hpin e).
Qed.

End OffChainProperties.

Section ChainDataMoreExamples.
#[local] Existing Instance py_codec.
#[local] Existing Instance map_storage.

Lemma get_chaindata_threshold_monotone_witness :
  get_chaindata_envelope two_messages 200000 ∅ = (on_chain_chaindata two_messages, ∅).
Proof.
  destruct (get_chaindata_threshold_monotone two_messages 100000 200000 ∅)
    as [Hmono _]; [lia|].
  apply Hmono. by vm_compute.
Defined.

Lemma get_tx_messages_on_tx_alone_witness :
  let n := empty_node ([] : list (json * string)) in
  (get_tx_messages false 0 inline_tx (Some {["QmSeen"]}) n).1.2 = Some {["QmSeen"]}
  ∧ (get_tx_messages false 0 inline_tx (Some {["QmSeen"]}) n).2 = n.
Proof.
  intros n.
  destruct (get_tx_messages_on_tx_alone false 0 inline_tx (Some {["QmSeen"]}) n)
    as (Hseen & Hnode & _); [by left|]. by split.
Defined.

Lemma inline_envelope_round_trip_witness :
  let n := empty_node ([] : list (json * string)) in
  (get_chaindata_envelope two_messages 100000 ∅).2 = ∅
  ∧ get_tx_messages false 0 inline_tx None n
    = (Ok (JList (map message_to_dict two_messages)), None, n).
Proof.
  intros n.
  apply (inline_envelope_round_trip two_messages 100000 ∅ false 0 inline_tx None n).
  - vm_compute. discriminate.
  - by vm_compute.
Defined.

Lemma off_chain_fetch_failure_witness :
  let n := empty_node ([] : list (json * string)) in
  let tx := off_chain_tx "QmMissing" in
  let r (e : exn) :=
    @get_tx_messages py_codec _ _ (failing_storage e) true 0 tx (Some ∅) n in
  (r InvalidContent).1.1 = Raise InvalidContent
  ∧ (r (OtherError "ClientConnectionError")).1.1 = Raise ContentCurrentlyUnavailable
  ∧ (r (BaseExceptionOnly "CancelledError")).1.1
    = Raise (BaseExceptionOnly "CancelledError")
  ∧ database (r (OtherError "ClientConnectionError")).2 = database n
  ∧ pin_log (r (OtherError "ClientConnectionError")).2 = pin_log n.
Proof.
  intros n tx r.
  assert (∀ s : gset string, Some (∅ : gset string) = Some s → "QmMissing" ∉ s)
    as Hunseen by (intros s [= <-]; apply not_elem_of_empty).
  pose proof (λ e, @off_chain_fetch_failure py_codec _ _ (failing_storage e)
                     true 0 tx "QmMissing" (Some ∅) n e
                     eq_refl eq_refl eq_refl Hunseen eq_refl) as Hw.
  cbv zeta in Hw.
  split; [exact (proj1 (Hw InvalidContent))|].
  split; [exact (proj1 (Hw (OtherError "ClientConnectionError")))|].
  split; [exact (proj1 (proj2 (proj2 (Hw (BaseExceptionOnly "CancelledError"))))
                   eq_refl)|].
  exact (proj2 (proj2 (proj2 (Hw (OtherError "ClientConnectionError"))))).
Defined.

Lemma off_chain_success_records_file_witness :
  let r := get_tx_messages true 42 (bundle_tx "0xtxA") None bundle_node in
  r.1.1 = Ok (JList (map message_to_dict two_messages))
  ∧ stored_files r.2 !! "QmBundle"
    = Some (StoredFileDb.mk "QmBundle"
              (Z.of_nat (String.length (py_json_dumps bundle_file))))
  ∧ tx_file_pins r.2 !! ("QmBundle", "0xtxA") = Some 42
  ∧ pin_log r.2 = ["QmBundle"]
  ∧ fetch_log r.2 = ["QmBundle"]
  ∧ pending_txs r.2 = pending_txs bundle_node.
Proof.
  apply (off_chain_success_records_file 42 (bundle_tx "0xtxA") "QmBundle" None
           bundle_node
           (MessageContent.mk "QmBundle" bundle_file (py_json_dumps bundle_file))
           (JList (map message_to_dict two_messages)) 2);
    try reflexivity; done.
Defined.

End ChainDataMoreExamples.

(** ** The pending-tx processor, further *)

Section MorePendingTxProperties.
Context `{Codec} {S P : Type} `{StorageService S} `{MessagePublisher P}.

Lemma set_published_same (n : Node S P) : set_published (published n) n = n.
Proof. by destruct n. Qed.

(** The three ways [handle_pending_tx] ends. *)
Lemma handle_pending_tx_cases ipfs_enabled now h seen (n : Node S P) :
  let r := handle_pending_tx ipfs_enabled now h seen n in
  (pending_txs n !! h = None ∧ r = (Ok tt, seen, n))
  ∨ (∃ e, is_Some (pending_txs n !! h) ∧ r.1.1 = Raise e
          ∧ pending_txs r.2 = pending_txs n)
  ∨ (is_Some (pending_txs n !! h) ∧ r.1.1 = Ok tt
     ∧ pending_txs r.2 = delete h (pending_txs n)).
Proof.
  unfold handle_pending_tx.
  destruct (pending_txs n !! h) as [tx|] eqn:Hrow; [|by left].
  right.
  pose proof (get_tx_messages_tables ipfs_enabled now tx seen n) as Htab.
  pose proof (get_tx_messages_iterable ipfs_enabled now tx seen n) as Hiter.
  destruct (get_tx_messages ipfs_enabled now tx seen n) as [[r seen'] n'].
  simpl in Htab, Hiter. destruct Htab as (Hpt & _).
  destruct r as [messages|e]; [|left; by exists e].
  specialize (Hiter messages eq_refl).
  destruct (if truthy messages then _ else _) as [[[]|e] p'] eqn:Hpub.
  - right. destruct messages; simpl in Hiter; try done; simpl; by rewrite Hpt.
  - left. exists e. simpl. by rewrite Hpt.
Qed.

(** X9. Redelivery is harmless: [handle_pending_tx] on a hash that is not
    pending returns without reading the storage, publishing or changing
    anything, and this is the case of every hash that a previous call has
    handled without raising. *)
Theorem handle_pending_tx_redelivery
    ipfs_enabled now h seen (n : Node S P) :
  (pending_txs n !! h = None →
   handle_pending_tx ipfs_enabled now h seen n = (Ok tt, seen, n))
  ∧ ((handle_pending_tx ipfs_enabled now h seen n).1.1 = Ok tt →
     ∀ ipfs_enabled' now' seen',
       handle_pending_tx ipfs_enabled' now' h seen'
         (handle_pending_tx ipfs_enabled now h seen n).2
       = (Ok tt, seen', (handle_pending_tx ipfs_enabled now h seen n).2)).
Proof.
  assert (∀ i t s (m : Node S P),
            pending_txs m !! h = None →
            handle_pending_tx i t h s m = (Ok tt, s, m)) as Hskip.
  { intros i t s m Hnone. unfold handle_pending_tx. by rewrite Hnone. }
  split; [apply Hskip|].
  intros Hok ipfs_enabled' now' seen'. apply Hskip.
  destruct (handle_pending_tx_cases ipfs_enabled now h seen n)
    as [[Hnone ->]|[(e & _ & He & _)|(_ & _ & Hdel)]].
  - done.
  - rewrite He in Hok. discriminate.
  - rewrite Hdel. apply lookup_delete_eq.
Qed.

Lemma handle_pending_tx_seen_file
    ipfs_enabled now h tx file_hash (seen : gset string) (n : Node S P) :
  pending_txs n !! h = Some tx →
  ChainTxDb.protocol tx = OFF_CHAIN_SYNC →
  ChainTxDb.protocol_version tx = 1 →
  ChainTxDb.content tx = JStr file_hash →
  file_hash ∈ seen →
  handle_pending_tx ipfs_enabled now h (Some seen) n
  = (Ok tt, Some seen, set_pending_txs (delete h (pending_txs n)) n).
Proof.
  intros Hrow Hp Hv Hc Hseen. unfold handle_pending_tx. rewrite Hrow.
  unfold get_tx_messages. rewrite Hp, Hv.
  rewrite (off_chain_already_seen _ _ _ file_hash) by done. simpl.
  by rewrite set_published_same.
Qed.

(** X10. A pending off-chain tx whose content hash is already in [seen_ids]
    is removed from the pending txs although nothing is fetched and no
    message is published for it. *)
Theorem handle_pending_tx_already_seen
    ipfs_enabled now h tx file_hash (seen : gset string) (n : Node S P) :
  pending_txs n !! h = Some tx →
  ChainTxDb.protocol tx = OFF_CHAIN_SYNC →
  ChainTxDb.protocol_version tx = 1 →
  ChainTxDb.content tx = JStr file_hash →
  file_hash ∈ seen →
  let r := handle_pending_tx ipfs_enabled now h (Some seen) n in
  r = (Ok tt, Some seen, set_pending_txs (delete h (pending_txs n)) n)
  ∧ pending_txs r.2 !! h = None
  ∧ fetch_log r.2 = fetch_log n
  ∧ published r.2 = published n.
Proof.
  intros Hrow Hp Hv Hc Hseen r. unfold r.
  rewrite (handle_pending_tx_seen_file _ _ _ tx file_hash) by done.
  repeat split. simpl. apply lookup_delete_eq.
Qed.

Lemma handle_queue_pending_txs ipfs_enabled clock i bodies seen (n : Node S P) h :
  let n' := (handle_queue ipfs_enabled clock i bodies seen n).2 in
  pending_txs n' !! h = pending_txs n !! h
  ∨ (h ∈ bodies ∧ is_Some (pending_txs n !! h) ∧ pending_txs n' !! h = None).
Proof.
  revert i seen n. induction bodies as [|b bodies IH]; intros i seen n; simpl; [by left|].
  pose proof (handle_pending_tx_cases ipfs_enabled (clock i) b seen n) as Hcases.
  destruct (handle_pending_tx ipfs_enabled (clock i) b seen n) as [[r seen1] n1].
  simpl in Hcases.
  destruct Hcases as [[_ Heq]|[(e & _ & Hr & Hsame)|(Hsome & Hr & Hdel)]];
    [|subst r..].
  - injection Heq as -> -> ->.
    destruct (IH (Datatypes.S i) seen n) as [Heq|(Hin & Hs & Hnone)]; [by left|].
    right. split; [by right|done].
  - left. simpl. by rewrite Hsame.
  - destruct (IH (Datatypes.S i) seen1 n1) as [Heq|(Hin & Hs & Hnone)].
    + rewrite Heq, Hdel. destruct (decide (b = h)) as [->|Hne].
      * right. split; [left|]. split; [done|apply lookup_delete_eq].
      * left. by apply lookup_delete_ne.
    + right. split; [by right|]. split; [|done].
      rewrite Hdel in Hs. destruct (decide (b = h)) as [->|Hne].
      * done.
      * by rewrite lookup_delete_ne in Hs.
Qed.

(** X11. A run of [process_pending_txs] only removes pending txs, and only
    those whose hash the queue delivered: every other pending tx is still
    pending, unchanged, whether the run ends or is cut by an exception, and
    no pending tx is created. *)
Theorem process_pending_txs_only_removes_delivered
    ipfs_enabled clock bodies (n : Node S P) h :
  let n' := (process_pending_txs ipfs_enabled clock bodies n).2 in
  (h ∉ bodies → pending_txs n' !! h = pending_txs n !! h)
  ∧ (pending_txs n' !! h = pending_txs n !! h ∨ pending_txs n' !! h = None).
Proof.
  unfold process_pending_txs.
  destruct (handle_queue_pending_txs ipfs_enabled clock 0%nat bodies (Some ∅) n h)
    as [Heq|(Hin & _ & Hnone)].
  - split; [done|by left].
  - split; [done|by right].
Qed.

End MorePendingTxProperties.

Section PendingTxRunProperties.
Context `{Codec} {S P : Type} `{StorageService S} `{MessagePublisher P}.

Lemma handle_pending_tx_off_chain_unseen
    ipfs_enabled now h tx file_hash (seen : gset string) (n : Node S P) :
  pending_txs n !! h = Some tx →
  ChainTxDb.protocol tx = OFF_CHAIN_SYNC →
  ChainTxDb.protocol_version tx = 1 →
  ChainTxDb.content tx = JStr file_hash →
  file_hash ∉ seen →
  (handle_pending_tx ipfs_enabled now h (Some seen) n).1.2 = Some ({[file_hash]} ∪ seen)
  ∧ fetch_log (handle_pending_tx ipfs_enabled now h (Some seen) n).2
    = (fetch_log n ++ [file_hash])%list.
Proof.
  intros Hrow Hp Hv Hc Hunseen. unfold handle_pending_tx. rewrite Hrow.
  rewrite (get_tx_messages_off_chain_unseen _ _ _ file_hash)
    by (try done; by intros s [= <-]).
  destruct (fetch_off_chain_messages_logs ipfs_enabled now tx file_hash n)
    as (pins & Hlog & _).
  destruct (fetch_off_chain_messages ipfs_enabled now tx file_hash n) as [r n1].
  simpl in *. destruct r as [messages|e]; [|done].
  destruct (if truthy messages then _ else _) as [[[]|e] p']; simpl; [|done].
  by destruct messages.
Qed.

(** X12. One run shares [seen_ids] between the txs it handles: when two
    pending off-chain txs refer to the same file and the first is handled
    without raising, the file is fetched once, and the second tx is removed
    from the pending txs without a fetch and without any message being
    published for it. *)
Theorem process_pending_txs_same_file
    ipfs_enabled clock h1 h2 tx1 tx2 file_hash (n : Node S P) :
  h1 ≠ h2 →
  pending_txs n !! h1 = Some tx1 →
  pending_txs n !! h2 = Some tx2 →
  ChainTxDb.protocol tx1 = OFF_CHAIN_SYNC ∧ ChainTxDb.protocol_version tx1 = 1
  ∧ ChainTxDb.content tx1 = JStr file_hash →
  ChainTxDb.protocol tx2 = OFF_CHAIN_SYNC ∧ ChainTxDb.protocol_version tx2 = 1
  ∧ ChainTxDb.content tx2 = JStr file_hash →
  (handle_pending_tx ipfs_enabled (clock 0%nat) h1 (Some ∅) n).1.1 = Ok tt →
  let n1 := (handle_pending_tx ipfs_enabled (clock 0%nat) h1 (Some ∅) n).2 in
  process_pending_txs ipfs_enabled clock [h1; h2] n
  = (Ok tt, Some ({[file_hash]} ∪ ∅),
     set_pending_txs (delete h2 (pending_txs n1)) n1)
  ∧ fetch_log n1 = (fetch_log n ++ [file_hash])%list
  ∧ pending_txs n1 = delete h1 (pending_txs n).
Proof.
  intros Hne Hrow1 Hrow2 (Hp1 & Hv1 & Hc1) (Hp2 & Hv2 & Hc2) Hok n1.
  destruct (handle_pending_tx_off_chain_unseen ipfs_enabled (clock 0%nat) h1 tx1
              file_hash ∅ n) as [Hseen Hlog]; try done.
  assert (pending_txs n1 = delete h1 (pending_txs n)) as Hdel.
  { destruct (handle_pending_tx_cases ipfs_enabled (clock 0%nat) h1 (Some ∅) n)
      as [[Hnone _]|[(e & _ & He & _)|(_ & _ & Hdel)]].
    - by rewrite Hrow1 in Hnone.
    - rewrite He in Hok. discriminate.
    - exact Hdel. }
  split; [|by split].
  unfold process_pending_txs. simpl. fold n1.
  destruct (handle_pending_tx ipfs_enabled (clock 0%nat) h1 (Some ∅) n)
    as [[r seen1] n1'] eqn:Hfirst.
  simpl in Hok, Hseen. subst r seen1. subst n1. simpl in *.
  rewrite (handle_pending_tx_seen_file _ _ h2 tx2 file_hash); try done.
  - rewrite Hdel. by rewrite lookup_delete_ne.
  - apply elem_of_union_l. by apply elem_of_singleton.
Qed.

(** X13. A tx recorded by [incoming_chaindata] is found by
    [handle_pending_tx]: for a tx of the on-chain protocol that carries a
    list of messages, each message is published in order with the hash of
    the tx and with signature checking on, and the pending txs are then what
    they were before the tx was recorded, less that hash. *)
Theorem incoming_chaindata_then_handle
    ipfs_enabled now tx messages seen (n : Node S P) :
  ChainTxDb.protocol tx = ON_CHAIN_SYNC →
  ChainTxDb.protocol_version tx = 1 →
  getitem (ChainTxDb.content tx) "messages" = Ok (JList messages) →
  (publish_messages messages now (ChainTxDb.hash tx) true (published n)).1 = Ok tt →
  let r := handle_pending_tx ipfs_enabled now (ChainTxDb.hash tx) seen
             (incoming_chaindata tx n) in
  r.1 = (Ok tt, seen)
  ∧ pending_txs r.2 = delete (ChainTxDb.hash tx) (pending_txs n)
  ∧ published r.2
    = (publish_messages messages now (ChainTxDb.hash tx) true (published n)).2
  ∧ fetch_log r.2 = fetch_log n
  ∧ stored_files r.2 = stored_files n.
Proof.
  intros Hp Hv Hmsgs Hpub r. unfold r, handle_pending_tx, incoming_chaindata.
  simpl. rewrite lookup_insert_eq.
  unfold get_tx_messages, _get_tx_messages_on_chain_protocol, _get_sync_messages.
  rewrite Hp, Hv, Hmsgs. simpl.
  destruct messages as [|m messages]; simpl.
  - by rewrite delete_insert_eq.
  - simpl in Hpub.
    destruct (publisher_add_pending_message (published n) m now (ChainTxDb.hash tx) true)
      as [[[]|e] p1]; [|done].
    destruct (publish_messages messages now (ChainTxDb.hash tx) true p1) as [r' p2].
    simpl in Hpub. subst r'. simpl. by rewrite delete_insert_eq.
Qed.

End PendingTxRunProperties.

Section PendingTxMoreExamples.
#[local] Existing Instance py_codec.
#[local] Existing Instance map_storage.
#[local] Existing Instance recording_publisher.

Lemma handle_pending_tx_redelivery_witness :
  let n := node_with_tx inline_tx in
  let n1 := (handle_pending_tx false 0 "0xtx3" None n).2 in
  handle_pending_tx false 0 "0xabsent" None n = (Ok tt, None, n)
  ∧ handle_pending_tx true 7 "0xtx3" (Some ∅) n1 = (Ok tt, Some ∅, n1).
Proof.
  intros n n1. split.
  - by apply (handle_pending_tx_redelivery false 0 "0xabsent" None n).
  - by apply (handle_pending_tx_redelivery false 0 "0xtx3" None n).
Defined.

Lemma handle_pending_tx_already_seen_witness :
  let r := handle_pending_tx false 0 "0xtxB" (Some {["QmBundle"]}) bundle_node in
  r = (Ok tt, Some {["QmBundle"]},
       set_pending_txs (delete "0xtxB" (pending_txs bundle_node)) bundle_node)
  ∧ pending_txs r.2 !! "0xtxB" = None
  ∧ fetch_log r.2 = fetch_log bundle_node
  ∧ published r.2 = published bundle_node.
Proof.
  apply (handle_pending_tx_already_seen false 0 "0xtxB" (bundle_tx "0xtxB") "QmBundle");
    first [reflexivity | by apply elem_of_singleton].
Defined.

Lemma process_pending_txs_only_removes_delivered_witness :
  let n' := (process_pending_txs false (fun _ => 0) ["0xtxA"] bundle_node).2 in
  pending_txs n' !! "0xtxB" = Some (bundle_tx "0xtxB").
Proof.
  intros n'.
  destruct (process_pending_txs_only_removes_delivered
              false (fun _ => 0) ["0xtxA"] bundle_node "0xtxB") as [Hkept _].
  unfold n'. rewrite Hkept; [reflexivity|].
  intros [Heq|Hin%elem_of_nil]%elem_of_cons; [discriminate|done].
Defined.

Lemma process_pending_txs_same_file_witness :
  let n1 := (handle_pending_tx false 0 "0xtxA" (Some ∅) bundle_node).2 in
  process_pending_txs false (fun _ => 0) ["0xtxA"; "0xtxB"] bundle_node
  = (Ok tt, Some ({["QmBundle"]} ∪ ∅),
     set_pending_txs (delete "0xtxB" (pending_txs n1)) n1)
  ∧ fetch_log n1 = ["QmBundle"]
  ∧ pending_txs n1 = delete "0xtxA" (pending_txs bundle_node)
  ∧ length (published n1) = 2%nat.
Proof.
  intros n1.
  destruct (process_pending_txs_same_file false (fun _ => 0) "0xtxA" "0xtxB"
              (bundle_tx "0xtxA") (bundle_tx "0xtxB") "QmBundle" bundle_node)
    as (Hrun & Hlog & Hdel); [done..|].
  repeat split; done.
Defined.

Lemma incoming_chaindata_then_handle_witness :
  let n := empty_node ([] : list (json * string)) in
  let r := handle_pending_tx false 0 "0xtx3" None (incoming_chaindata inline_tx n) in
  r.1 = (Ok tt, None)
  ∧ pending_txs r.2 = delete "0xtx3" ∅
  ∧ published r.2
    = [(message_to_dict (sample_message "item-hash-1"), "0xtx3");
       (message_to_dict (sample_message "item-hash-2"), "0xtx3")]
  ∧ fetch_log r.2 = []
  ∧ stored_files r.2 = ∅.
Proof.
  intros n.
  exact (incoming_chaindata_then_handle false 0 inline_tx
           (map message_to_dict two_messages) None n
           eq_refl eq_refl eq_refl eq_refl).
Defined.

End PendingTxMoreExamples.

(** ** The pending-message job, further *)

(** X14. The checks of [validate_pending_message] come too late in the loop
    of [process_pending_messages]: whenever it would raise for a document,
    [get_pending_message_id], which the loop calls first on the same
    document, raises. *)
Theorem validate_pending_message_after_id (pending : json) (e : exn) :
  validate_pending_message pending = Raise e →
  ∃ e', get_pending_message_id pending = Raise e'.
Proof.
  unfold validate_pending_message, get_pending_message_id, py_get, getitem, rbind.
  intros Hv.
  destruct pending as [| | | | |d]; try (by eexists).
  destruct (dict_get "message" d) as [[| | | | |msg]|]; try discriminate;
    destruct (dict_get "source" d) as [[| | | | |src]|]; try (by eexists);
    try (destruct (dict_get "chain_name" src), (dict_get "height" src));
    by eexists.
Qed.

Lemma validate_pending_message_after_id_witness :
  validate_pending_message (JObj [("_id", JNum 1); ("message", JStr "raw")])
  = Raise (ValueError "Pending message is not a dictionary and cannot be read")
  ∧ ∃ e', get_pending_message_id (JObj [("_id", JNum 1); ("message", JStr "raw")])
          = Raise e'.
Proof.
  split; [reflexivity|].
  apply (validate_pending_message_after_id
           (JObj [("_id", JNum 1); ("message", JStr "raw")])
           (ValueError "Pending message is not a dictionary and cannot be read")).
  reflexivity.
Defined.

Section MorePendingMessageProperties.
Context {M : Type} `{MessageHandling M}.

(** X15. For a document with an id, a message that parses and a source,
    [handle_pending_message] calls [incoming] once, with the chain name, tx
    hash and height of the source ([None] when absent) and with
    [check_message] defaulting to [True]. It returns the operations of
    [incoming] in their order, followed by the deletion of the document
    unless [incoming] answers RETRYING_LATER; when [incoming] raises, so
    does it, and no deletion is returned. *)
Theorem handle_pending_message_outcome
    (pending : json) (seen_ids : gmap seen_key Z)
    (pending_id message : json) (m : M) (source : list (string * json)) :
  getitem pending "_id" = Ok pending_id →
  getitem pending "message" = Ok message →
  parse_message message = Ok m →
  getitem pending "source" = Ok (JObj source) →
  match incoming m (get_or source "chain_name" JNull) (get_or source "tx_hash" JNull)
                 (get_or source "height" JNull) seen_ids
                 (get_or source "check_message" (JBool true)) pending_id with
  | (Ok (status, operations), seen') =>
      handle_pending_message pending seen_ids
      = (Ok (operations
             ++ if decide (status = RETRYING_LATER) then []
                else [mkDbBulkOperation PendingMessage
                        (DeleteOne (JObj [("_id", pending_id)]))])%list,
         seen')
  | (Raise e, seen') => handle_pending_message pending seen_ids = (Raise e, seen')
  end.
Proof.
  intros Hid Hmsg Hparse Hsrc. unfold handle_pending_message.
  rewrite Hid, Hmsg. simpl. rewrite Hparse, Hsrc. simpl.
  unfold get_or.
  destruct (dict_get "chain_name" source), (dict_get "tx_hash" source),
    (dict_get "height" source), (dict_get "check_message" source); simpl;
    match goal with
    | |- context [incoming ?a ?b ?c ?d ?e ?f ?g] =>
        destruct (incoming a b c d e f g) as [[[status ops]|e'] seen']
    end; try done;
    destruct (decide (status = RETRYING_LATER)) as [->|Hne]; simpl;
    try (by rewrite app_nil_r);
    by (rewrite decide_True by done) || done.
Qed.

(** X16. A document without a [source] gets a key from
    [get_pending_message_id], with [None] as chain name and height, but
    cannot be handled: once its message has parsed,
    [handle_pending_message] raises [KeyError] for [source], [incoming] is
    not called and no operation is returned, so the document stays
    pending. *)
Theorem handle_pending_message_without_source
    (d : list (string * json)) (seen_ids : gmap seen_key Z)
    (pending_id message item_hash sender : json) (m : M) :
  dict_get "source" d = None →
  dict_get "_id" d = Some pending_id →
  dict_get "message" d = Some message →
  getitem message "item_hash" = Ok item_hash →
  getitem message "sender" = Ok sender →
  parse_message message = Ok m →
  get_pending_message_id (JObj d) = Ok (item_hash, sender, JNull, JNull)
  ∧ handle_pending_message (JObj d) seen_ids = (Raise (KeyError "source"), seen_ids).
Proof.
  intros Hsrc Hid Hmsg Hih Hsd Hparse. split.
  - unfold get_pending_message_id, py_get, getitem. simpl.
    rewrite Hsrc. simpl. rewrite Hmsg. simpl.
    unfold getitem in Hih, Hsd.
    destruct message; try discriminate.
    destruct (dict_get "item_hash" fields); [|discriminate].
    destruct (dict_get "sender" fields); [|discriminate].
    simpl. congruence.
  - unfold handle_pending_message, getitem. rewrite Hid, Hmsg. simpl.
    rewrite Hparse. by rewrite Hsrc.
Qed.

End MorePendingMessageProperties.

Lemma handle_pending_message_outcome_witness :
  handle_pending_message (H := retrying_handling) doc_at_5 ∅
  = (Ok [mkDbBulkOperation PendingMessage (UpdateOne (JObj []) (JObj []) false)], ∅)
  ∧ handle_pending_message (H := simple_handling) doc_at_5 ∅
    = (Ok [mkDbBulkOperation PendingMessage (DeleteOne (JObj [("_id", JNum 2)]))], ∅).
Proof.
  split.
  - exact (handle_pending_message_outcome (H := retrying_handling) doc_at_5 ∅
             (JNum 2) _ _ _ eq_refl eq_refl eq_refl eq_refl).
  - exact (handle_pending_message_outcome (H := simple_handling) doc_at_5 ∅
             (JNum 2) _ _ _ eq_refl eq_refl eq_refl eq_refl).
Defined.

Lemma handle_pending_message_without_source_witness :
  get_pending_message_id sourceless_doc
  = Ok (JStr "item-hash-3", JStr "0xsender", JNull, JNull)
  ∧ handle_pending_message (H := simple_handling) sourceless_doc ∅
    = (Raise (KeyError "source"), ∅).
Proof.
  exact (handle_pending_message_without_source (H := simple_handling)
           [ ("_id", JNum 9);
             ("message", JObj [ ("item_hash", JStr "item-hash-3");
                                ("sender", JStr "0xsender") ]) ]
           ∅ (JNum 9)
           (JObj [ ("item_hash", JStr "item-hash-3"); ("sender", JStr "0xsender") ])
           (JStr "item-hash-3") (JStr "0xsender")
           (JObj [ ("item_hash", JStr "item-hash-3"); ("sender", JStr "0xsender") ])
           eq_refl eq_refl eq_refl eq_refl eq_refl eq_refl).
Defined.

(** *** The cleanup sweep, further *)

Lemma filter_filter_andb {A} (f g : A → bool) (l : list A) :
  List.filter f (List.filter g l) = List.filter (fun x => g x && f x) l.
Proof.
  induction l as [|x l IH]; simpl; [done|].
  destruct (g x); simpl; [|done]. destruct (f x); by rewrite IH.
Qed.

Lemma filter_sublist {A} (f : A → bool) (l : list A) : List.filter f l `sublist_of` l.
Proof.
  induction l as [|x l IH]; simpl; [constructor|].
  destruct (f x); by constructor.
Qed.

Lemma fold_delete_many_filter actions docs :
  fold_left (fun ds action => delete_many action ds) actions docs
  = List.filter (fun doc => negb (swept actions doc)) docs.
Proof.
  revert docs. induction actions as [|a actions IH]; intros docs; simpl.
  - induction docs as [|d docs IHd]; simpl; [done|]. by rewrite <- IHd.
  - rewrite IH. unfold delete_many. rewrite filter_filter_andb.
    apply filter_pointwise. intros d. by rewrite negb_orb.
Qed.

(** The collection after a sweep is the collection itself or what the filter
    of the actions leaves of it. *)
Lemma clean_pending_messages_filter seen_ids docs :
  (clean_pending_messages seen_ids docs).2 = docs
  ∨ (clean_pending_messages seen_ids docs).2
    = List.filter (fun doc => negb (swept (clean_actions seen_ids) doc)) docs.
Proof.
  unfold clean_pending_messages, bulk_write.
  destruct (100000 <? Z.of_nat (length docs)); [|by left].
  destruct (clean_actions seen_ids) as [|a actions] eqn:Hactions; [by left|].
  right. simpl fst. simpl snd.
  change (fold_left (fun ds action => delete_many action ds) actions (delete_many a docs))
    with (fold_left (fun ds action => delete_many action ds) (a :: actions) docs).
  apply fold_delete_many_filter.
Qed.

(** X17. The sweep only removes documents: the collection it leaves is a
    sublist of the collection it found, in the same order; at or below
    100000 documents it leaves the collection as it is; and sweeping again
    with the same [seen_ids] removes nothing more. *)
Theorem clean_pending_messages_only_removes
    (seen_ids : gmap seen_key Z) (docs : list json) :
  (clean_pending_messages seen_ids docs).2 `sublist_of` docs
  ∧ (Z.of_nat (length docs) ≤ 100000 →
     clean_pending_messages seen_ids docs = (Ok tt, docs))
  ∧ (clean_pending_messages seen_ids (clean_pending_messages seen_ids docs).2).2
    = (clean_pending_messages seen_ids docs).2.
Proof.
  split; [|split].
  - destruct (clean_pending_messages_filter seen_ids docs) as [->| ->];
      [done|apply filter_sublist].
  - intros Hle. unfold clean_pending_messages.
    destruct (Z.ltb_spec 100000 (Z.of_nat (length docs))); [lia|done].
  - destruct (clean_pending_messages_filter seen_ids docs) as [Hsame|Hfilter].
    + by rewrite Hsame.
    + destruct (clean_pending_messages_filter seen_ids
                  (clean_pending_messages seen_ids docs).2) as [Hsame'|Hfilter'];
        [done|].
      rewrite Hfilter'. rewrite Hfilter at 1 2.
      rewrite filter_filter_andb, <- Hfilter.
      rewrite Hfilter. apply filter_pointwise. intros d. by rewrite andb_diag.
Qed.

(** X18. The sweep never deletes a document whose source has no numeric
    height, such as a message that did not come from a tx, whatever
    [seen_ids] records. *)
Theorem clean_pending_messages_keeps_without_height
    (seen_ids : gmap seen_key Z) (docs : list json) (d : json) :
  d ∈ docs →
  (∀ x, path_get ["source"; "height"] d ≠ Some (JNum x)) →
  d ∈ (clean_pending_messages seen_ids docs).2.
Proof.
  intros Hd Hheight.
  destruct (clean_pending_messages_filter seen_ids docs) as [->| ->]; [done|].
  rewrite list_elem_of_In, filter_In, <- list_elem_of_In. split; [done|].
  apply negb_true_iff. unfold swept.
  destruct (existsb _ _) eqn:Hex; [|done].
  apply existsb_exists in Hex as ([key h] & _ & Hf).
  apply clean_filter_spec in Hf as (x & _ & _ & _ & Hx & _).
  by destruct (Hheight x).
Qed.

Lemma clean_pending_messages_keeps_without_height_witness :
  p2p_doc ∈ (clean_pending_messages seen_at_5 (p2p_doc :: big_collection)).2.
Proof.
  apply (clean_pending_messages_keeps_without_height seen_at_5
           (p2p_doc :: big_collection) p2p_doc).
  - left.
  - intros x. discriminate.
Defined.

Lemma clean_pending_messages_only_removes_witness :
  clean_pending_messages seen_at_5 [doc_at_10; doc_at_5] = (Ok tt, [doc_at_10; doc_at_5]).
Proof.
  apply (clean_pending_messages_only_removes seen_at_5 [doc_at_10; doc_at_5]).
  simpl. lia.
Defined.

(** ** Messages built from pending messages *)

Lemma dict_get_set_eq k v d : dict_get k (dict_set k v d) = Some v.
Proof.
  induction d as [|[k' v'] d IH]; simpl.
  - by rewrite String.eqb_refl.
  - destruct (String.eqb k k') eqn:Hk; simpl.
    + by rewrite String.eqb_refl.
    + by rewrite Hk.
Qed.

Lemma dict_get_set_ne k k' v d : k ≠ k' → dict_get k' (dict_set k v d) = dict_get k' d.
Proof.
  intros Hne. induction d as [|[k'' v''] d IH]; simpl.
  - apply String.eqb_neq in Hne. rewrite String.eqb_sym in Hne. by rewrite Hne.
  - destruct (String.eqb k k'') eqn:Hk; simpl.
    + apply String.eqb_eq in Hk. subst k''.
      apply String.eqb_neq in Hne. rewrite String.eqb_sym in Hne. by rewrite Hne.
    + destruct (String.eqb k' k''); [done|exact IH].
Qed.

Lemma coerce_content_lookups (pm : PendingMessageDb.t) (d : list (string * json)) :
  dict_get "address" (_coerce_content pm d)
  = (if get_is_None "address" d then Some (JStr (PendingMessageDb.sender pm))
     else dict_get "address" d)
  ∧ dict_get "time" (_coerce_content pm d)
    = (if get_is_None "time" d
       then Some (JNum (timestamp (PendingMessageDb.time pm)))
       else dict_get "time" d).
Proof.
  split.
  - unfold _coerce_content.
    destruct (get_is_None "address" d) eqn:Ha.
    + destruct (get_is_None "time" _).
      * rewrite dict_get_set_ne by discriminate. apply dict_get_set_eq.
      * apply dict_get_set_eq.
    + destruct (get_is_None "time" d); [|done].
      by rewrite dict_get_set_ne by discriminate.
  - unfold _coerce_content.
    destruct (get_is_None "address" d) eqn:Ha.
    + assert (get_is_None "time" (dict_set "address" (JStr (PendingMessageDb.sender pm)) d)
              = get_is_None "time" d) as ->
        by (unfold get_is_None; by rewrite dict_get_set_ne by discriminate).
      destruct (get_is_None "time" d) eqn:Ht.
      * by rewrite dict_get_set_eq.
      * by rewrite dict_get_set_ne by discriminate.
    + destruct (get_is_None "time" d) eqn:Ht; [by rewrite dict_get_set_eq|done].
Qed.

Lemma coerce_content_not_None (pm : PendingMessageDb.t) (d : list (string * json)) :
  get_is_None "address" (_coerce_content pm d) = false
  ∧ get_is_None "time" (_coerce_content pm d) = false.
Proof.
  destruct (coerce_content_lookups pm d) as [Haddr Htime]. split.
  - unfold get_is_None at 1. rewrite Haddr.
    destruct (get_is_None "address" d) eqn:Ha; [done|].
    unfold get_is_None in Ha. by destruct (dict_get "address" d) as [[]|].
  - unfold get_is_None at 1. rewrite Htime.
    destruct (get_is_None "time" d) eqn:Ht; [done|].
    unfold get_is_None in Ht. by destruct (dict_get "time" d) as [[]|].
Qed.

(** X19. [_coerce_content] leaves a dict in which [address] and [time] are
    present and not [None]: each is taken from the dict when it is there and
    not [None], and otherwise set to the sender, respectively the epoch time,
    of the pending message. Every other key keeps its value, and coercing
    the result again changes nothing. *)
Theorem _coerce_content_fills_address_and_time
    (pm : PendingMessageDb.t) (d : list (string * json)) :
  let d' := _coerce_content pm d in
  get_is_None "address" d' = false
  ∧ get_is_None "time" d' = false
  ∧ dict_get "address" d'
    = (if get_is_None "address" d then Some (JStr (PendingMessageDb.sender pm))
       else dict_get "address" d)
  ∧ dict_get "time" d'
    = (if get_is_None "time" d
       then Some (JNum (timestamp (PendingMessageDb.time pm)))
       else dict_get "time" d)
  ∧ (∀ k, k ≠ "address" → k ≠ "time" → dict_get k d' = dict_get k d)
  ∧ _coerce_content pm d' = d'.
Proof.
  intros d'.
  destruct (coerce_content_lookups pm d) as [Haddr Htime].
  destruct (coerce_content_not_None pm d) as [Ha' Ht'].
  repeat split; try done.
  - intros k Hka Hkt. unfold d', _coerce_content.
    destruct (get_is_None "address" d);
      [destruct (get_is_None "time" (dict_set "address" _ d))
      |destruct (get_is_None "time" d)];
      repeat (rewrite dict_get_set_ne by congruence); done.
  - unfold _coerce_content at 1. fold d' in Ha', Ht'. by rewrite Ha', Ht'.
Qed.

Section MessageModelProperties.
Context {C : Type} `{ContentModels C}.

(** X20. A message built by [from_pending_message] has the item hash, type,
    chain, sender, signature, item type, item content, time and channel of
    the pending message and the given size; its content is the coerced dict,
    in which [address] and [time] are not [None], and it is that dict, not
    the one passed in, that has passed [validate_message_content]. When the
    validation of the coerced dict raises, the same exception is raised and
    no message is built. *)
Theorem from_pending_message_content
    (pm : PendingMessageDb.t) (d : list (string * json)) (content_size : Z) :
  match validate_message_content (PendingMessageDb.type pm) (_coerce_content pm d) with
  | Raise e => from_pending_message pm d content_size = Raise e
  | Ok parsed =>
      ∃ message,
        from_pending_message pm d content_size = Ok (message, parsed)
        ∧ MessageDb.content message = JObj (_coerce_content pm d)
        ∧ get_is_None "address" (_coerce_content pm d) = false
        ∧ get_is_None "time" (_coerce_content pm d) = false
        ∧ MessageDb.item_hash message = PendingMessageDb.item_hash pm
        ∧ MessageDb.type message = PendingMessageDb.type pm
        ∧ MessageDb.chain message = PendingMessageDb.chain pm
        ∧ MessageDb.sender message = PendingMessageDb.sender pm
        ∧ MessageDb.signature message = PendingMessageDb.signature pm
        ∧ MessageDb.item_type message = PendingMessageDb.item_type pm
        ∧ MessageDb.item_content message = PendingMessageDb.item_content pm
        ∧ MessageDb.time message = PendingMessageDb.time pm
        ∧ MessageDb.channel message = PendingMessageDb.channel pm
        ∧ MessageDb.size message = content_size
  end.
Proof.
  destruct (coerce_content_not_None pm d) as [Ha Ht].
  unfold from_pending_message.
  destruct (validate_message_content _ _) as [parsed|e]; [|done].
  eexists. split; [reflexivity|]. by repeat split.
Qed.

End MessageModelProperties.

(** ** The cost of executable messages *)

Lemma add_file_sizes_all session volumes total :
  (∀ v, v ∈ volumes →
        is_Some (_get_file_from_ref session (Volume.ref v) (Volume.use_latest v))) →
  add_file_sizes session volumes total
  = Priced (total + Zsum (file_sizes session volumes)).
Proof.
  revert total. induction volumes as [|v volumes IH]; intros total Hall; simpl.
  - f_equal. unfold Zsum. simpl. lia.
  - destruct (Hall v) as [file Hfile]; [left|]. unfold file_sizes. simpl.
    rewrite Hfile. simpl. rewrite IH by (intros w Hw; apply Hall; by right).
    f_equal. unfold Zsum, file_sizes. simpl. lia.
Qed.

Lemma add_file_sizes_missing session before v after total :
  (∀ w, w ∈ before →
        is_Some (_get_file_from_ref session (Volume.ref w) (Volume.use_latest w))) →
  _get_file_from_ref session (Volume.ref v) (Volume.use_latest v) = None →
  add_file_sizes session (before ++ v :: after) total
  = RuntimeError ("Could not find entry in file tags for " ++ Volume.ref v ++ ".").
Proof.
  revert total. induction before as [|w before IH]; intros total Hall Hnone; simpl.
  - by rewrite Hnone.
  - destruct (Hall w) as [file Hfile]; [left|]. rewrite Hfile.
    apply IH; [|done]. intros w' Hw'. apply Hall. by right.
Qed.

Lemma fold_sized_volumes (sizes : list Z) total :
  fold_left (fun acc size_mib => acc + size_mib * MiB) sizes total
  = total + Zsum sizes * MiB.
Proof.
  revert total. induction sizes as [|s sizes IH]; intros total; simpl.
  - unfold Zsum. simpl. lia.
  - rewrite IH. unfold Zsum. simpl. lia.
Qed.

Lemma get_volume_size_resolved session content :
  (∀ v, v ∈ ref_volumes content →
        is_Some (_get_file_from_ref session (Volume.ref v) (Volume.use_latest v))) →
  get_volume_size session content
  = Priced (Zsum (file_sizes session (ref_volumes content))
            + Zsum (sized_volumes content) * MiB).
Proof.
  intros Hall. unfold get_volume_size.
  rewrite add_file_sizes_all by done. by rewrite fold_sized_volumes.
Qed.

Lemma get_volume_size_unresolved session content before v after :
  ref_volumes content = (before ++ v :: after)%list →
  (∀ w, w ∈ before →
        is_Some (_get_file_from_ref session (Volume.ref w) (Volume.use_latest w))) →
  _get_file_from_ref session (Volume.ref v) (Volume.use_latest v) = None →
  get_volume_size session content
  = RuntimeError ("Could not find entry in file tags for " ++ Volume.ref v ++ ".").
Proof.
  intros Hrefs Hall Hnone. unfold get_volume_size.
  by rewrite Hrefs, (add_file_sizes_missing _ _ _ _ _ Hall Hnone).
Qed.



Lemma nearest_float_exact (m : Z) : Z.abs m ≤ 2 ^ 53 → nearest_float m = m.
Proof.
  intros Hm. unfold nearest_float.
  destruct (Z.eq_dec (Z.abs m) (2 ^ 53)) as [Heq|Hne].
  - destruct (Z.abs_eq_or_opp m) as [Habs|Habs]; rewrite Habs in Heq.
    + by subst m.
    + assert (m = - 2 ^ 53) as -> by lia. reflexivity.
  - assert (Z.log2 (Z.abs m) - 52 ≤ 0) as Hlog.
    { destruct (Z.eq_dec (Z.abs m) 0) as [->|Hnz]; [done|].
      assert (Z.log2 (Z.abs m) < 53); [|lia].
      apply Z.log2_lt_pow2; lia. }
    by destruct (Z.leb_spec (Z.log2 (Z.abs m) - 52) 0); [|lia].
Qed.

(** X23. For a memory that a float holds exactly (up to [2 ^ 53] in absolute
    value), [_get_nb_compute_units] is the least number of units that covers
    both the virtual CPUs, one per unit, and the memory, 2048 per unit. *)
Theorem _get_nb_compute_units_least (content : Exec.content) :
  let units := _get_nb_compute_units content in
  let vcpus := Exec.vcpus (Exec.content_resources content) in
  let memory := Exec.memory (Exec.content_resources content) in
  Z.abs memory ≤ 2 ^ 53 →
  vcpus ≤ units
  ∧ memory ≤ 2048 * units
  ∧ ∀ k, vcpus ≤ k → memory ≤ 2048 * k → units ≤ k.
Proof.
  intros units vcpus memory Hfloat. unfold units, _get_nb_compute_units.
  fold vcpus memory. rewrite (nearest_float_exact memory Hfloat).
  pose proof (Z.div_mod (- memory) 2048 ltac:(lia)) as Hdiv.
  pose proof (Z.mod_pos_bound (- memory) 2048 ltac:(lia)) as Hmod.
  destruct (Z.leb_spec (- (- memory / 2048)) vcpus); repeat split; try lia;
    intros k Hk1 Hk2; lia.
Qed.

(** Beyond [2 ^ 53] the division rounds: for a memory of [2 ^ 53 + 1] the
    units do not cover the memory. *)
Lemma _get_nb_compute_units_rounded_memory :
  _get_nb_compute_units huge_instance = 4398046511104
  ∧ 2048 * _get_nb_compute_units huge_instance
    < Exec.memory (Exec.content_resources huge_instance).
Proof. by vm_compute. Qed.







(** ** The price controller *)

Section PriceProperties.
Variable ItemHash_accepts : string → bool.

(** X26. [get_executable_message] returns a message only when the hash is
    well formed, the status of the message is processed, the message is
    stored under that hash and its type is instance or program, and then it
    returns that stored message. A pending message is answered with status
    102, a forgotten one with 410, and a rejected, unknown or missing one
    with 404. *)
Theorem get_executable_message_processed_executable
    (session : MessageSession) (item_hash_str : string) :
  (∀ message,
     get_executable_message ItemHash_accepts session item_hash_str = inr message ↔
     ItemHash_accepts item_hash_str = true
     ∧ session_message_status session !! item_hash_str = Some PROCESSED
     ∧ session_messages session !! item_hash_str = Some message
     ∧ (MessageDb.type message = instance ∨ MessageDb.type message = program))
  ∧ (ItemHash_accepts item_hash_str = true →
     match session_message_status session !! item_hash_str with
     | Some PENDING =>
         get_executable_message ItemHash_accepts session item_hash_str
         = inl HTTPProcessing
     | Some FORGOTTEN =>
         get_executable_message ItemHash_accepts session item_hash_str = inl HTTPGone
     | Some REJECTED | None =>
         get_executable_message ItemHash_accepts session item_hash_str
         = inl HTTPNotFound
     | Some PROCESSED =>
         session_messages session !! item_hash_str = None →
         get_executable_message ItemHash_accepts session item_hash_str
         = inl HTTPNotFound
     | Some REMOVING => True
     end).
Proof.
  unfold get_executable_message. split.
  - intros message.
    destruct (ItemHash_accepts item_hash_str); simpl; [|split; [done|by intros [? _]]].
    destruct (session_message_status session !! item_hash_str) as [[]|]; simpl;
      try (split; [done|by intros (_ & ? & _)]).
    destruct (session_messages session !! item_hash_str) as [m|]; simpl;
      [|split; [done|by intros (_ & _ & ? & _)]].
    destruct (MessageDb.type m) eqn:Hty; split;
      try done;
      try (intros [= <-]; rewrite Hty; repeat split; auto);
      try (intros (_ & _ & [= <-] & [Hi|Hp]); congruence).
  - intros ->. simpl.
    destruct (session_message_status session !! item_hash_str) as [[]|]; simpl;
      try done.
    by intros ->.
Qed.

End PriceProperties.

Lemma get_executable_message_processed_executable_witness :
  let accepts := fun s : string => negb (String.eqb s "") in
  get_executable_message accepts price_session "hash-instance"
  = inr processed_instance
  ∧ get_executable_message accepts price_session "hash-pending" = inl HTTPProcessing
  ∧ get_executable_message accepts price_session "hash-forgotten" = inl HTTPGone
  ∧ get_executable_message accepts price_session "hash-unknown" = inl HTTPNotFound
  ∧ get_executable_message accepts price_session "hash-post" = inl HTTPBadRequest
  ∧ get_executable_message accepts price_session "" = inl HTTPBadRequest.
Proof.
  intros accepts.
  destruct (get_executable_message_processed_executable accepts price_session
              "hash-instance") as [Hreturned _].
  destruct (get_executable_message_processed_executable accepts price_session
              "hash-pending") as [_ Hpending].
  destruct (get_executable_message_processed_executable accepts price_session
              "hash-forgotten") as [_ Hforgotten].
  destruct (get_executable_message_processed_executable accepts price_session
              "hash-unknown") as [_ Hunknown].
  split; [|split; [|split; [|split; [|split]]]].
  - apply Hreturned. repeat split; try reflexivity. by left.
  - exact (Hpending eq_refl).
  - exact (Hforgotten eq_refl).
  - exact (Hunknown eq_refl).
  - reflexivity.
  - reflexivity.
Defined.

Lemma _coerce_content_fills_address_and_time_witness :
  let d := [("time", JNull); ("key", JStr "value")] in
  _coerce_content fixture_instance_message d
  = [ ("time", JNum 1619017773895057); ("key", JStr "value");
      ("address", JStr "0x9319Ad3B7A8E0eE24f2E639c40D8eD124C5520Ba") ]
  ∧ dict_get "key" (_coerce_content fixture_instance_message d) = dict_get "key" d.
Proof.
  intros d. split; [reflexivity|].
  destruct (_coerce_content_fills_address_and_time fixture_instance_message d)
    as (_ & _ & _ & _ & Hother & _).
  apply Hother; discriminate.
Defined.

Lemma _get_nb_compute_units_least_witness :
  _get_nb_compute_units (sample_program None) = 2
  ∧ _get_nb_compute_units (sample_program None) ≤ 3.
Proof.
  split; [reflexivity|].
  destruct (_get_nb_compute_units_least (sample_program None)) as (_ & _ & Hleast).
  - vm_compute. discriminate.
  - apply Hleast; simpl; lia.
Defined.
